(** * Verification of the resume analysis and normalisation helpers of app.py

    The development embeds, function by function, the Python code of
    [src/app.py]:

    - the text formatters [smart_format_text] and [smart_format_skills]
      together with the [str] methods they call ([strip], [title],
      [replace]) and [re.split] on the pattern [[,\s]+];
    - [extract_text_from_pdf], over the outcome of the PyPDF2 calls;
    - [analyze_with_gemini], over an engine oracle and a JSON decoder;
    - the request handlers [ats_tool] and [resume_builder], as state
      passing functions over a world that records engine calls, flashed
      messages, files and stored rows; writing and removing a file may
      raise, as the file system tells;
    - the views [resume_view], [dashboard], [auth_route], [logout] and
      [index], over the stored rows, the accounts and the session.

    A Python [str] is modelled as a [string] of 7-bit characters.  The
    character classes follow CPython on the code points 0..127; the values
    128..255 of [ascii] are treated as uncased characters that are not
    white space. *)

From Stdlib Require Import Strings.String Strings.Ascii.
From Stdlib Require Import Lists.List Bool.Bool Arith.Arith ZArith.ZArith Lia.
Import ListNotations.

Local Open Scope list_scope.
Local Open Scope string_scope.

(** ** Python string primitives *)

Module PyStr.

(** [str.isspace] on one character: CPython's table of ASCII white space
    holds 0x09..0x0D, 0x1C..0x1F and 0x20.  The same class is [\s] in a
    [re] pattern on [str].  Beyond the 7-bit range CPython has further
    white space (U+0085, U+00A0, U+2003 and others), which this model does
    not hold. *)
Definition is_space (c : ascii) : bool :=
  let n := nat_of_ascii c in
  ((9 <=? n) && (n <=? 13) || (28 <=? n) && (n <=? 32))%nat.

Definition is_upper (c : ascii) : bool :=
  let n := nat_of_ascii c in ((65 <=? n) && (n <=? 90))%nat.

Definition is_lower (c : ascii) : bool :=
  let n := nat_of_ascii c in ((97 <=? n) && (n <=? 122))%nat.

Definition to_upper (c : ascii) : ascii :=
  if is_lower c then ascii_of_nat (nat_of_ascii c - 32) else c.

Definition to_lower (c : ascii) : ascii :=
  if is_upper c then ascii_of_nat (nat_of_ascii c + 32) else c.

(** Truth value of a [str]: the empty string is false. *)
Definition truthy (s : string) : bool :=
  match s with "" => false | _ => true end.

(** Truth value of a value that may be [None]. *)
Definition truthy_opt (o : option string) : bool :=
  match o with None => false | Some s => truthy s end.

(** [s.startswith(p)]. *)
Fixpoint startswith (p s : string) : bool :=
  match p, s with
  | "", _ => true
  | String a p', String b s' => Ascii.eqb a b && startswith p' s'
  | String _ _, "" => false
  end.

(** [p in s]. *)
Fixpoint contains (p s : string) : bool :=
  startswith p s ||
  match s with
  | "" => false
  | String _ s' => contains p s'
  end.

Fixpoint lstrip (s : string) : string :=
  match s with
  | "" => ""
  | String c s' => if is_space c then lstrip s' else s
  end.

Fixpoint rstrip (s : string) : string :=
  match s with
  | "" => ""
  | String c s' =>
      match rstrip s' with
      | "" => if is_space c then "" else String c ""
      | r => String c r
      end
  end.

(** [s.strip()]: white space removed at both ends. *)
Definition strip (s : string) : string := rstrip (lstrip s).

(** [s.title()]: a cased character is upper-cased when the character
    before it is not cased (or there is none) and lower-cased otherwise.
    [prev] is CPython's [previous_is_cased].  The cased characters of the
    7-bit range are the letters A-Z and a-z, each mapped to one letter;
    beyond that range CPython has further cased characters, some mapped
    to several, which this model does not hold. *)
Fixpoint title_from (prev : bool) (s : string) : string :=
  match s with
  | "" => ""
  | String c s' =>
      if is_lower c then
        String (if prev then c else to_upper c) (title_from true s')
      else if is_upper c then
        String (if prev then to_lower c else c) (title_from true s')
      else String c (title_from false s')
  end.

Definition title (s : string) : string := title_from false s.

(** [s.replace(old, new)]: the occurrences of [old] are found from left to
    right without overlap.  [skip] counts the characters of the occurrence
    found last that are still to be passed over.  For an empty [old],
    [new] is put before every character and at the end. *)
Fixpoint replace_from (skip : nat) (old new s : string) : string :=
  match s with
  | "" => match old with "" => new | _ => "" end
  | String c s' =>
      match skip with
      | S k => replace_from k old new s'
      | O =>
          if startswith old s then
            match old with
            | "" => new ++ String c (replace_from 0 old new s')
            | _ => new ++ replace_from (String.length old - 1) old new s'
            end
          else String c (replace_from 0 old new s')
      end
  end.

Definition replace (old new s : string) : string := replace_from 0 old new s.

(** [sep.join(parts)]. *)
Fixpoint join (sep : string) (parts : list string) : string :=
  match parts with
  | [] => ""
  | [p] => p
  | p :: ps => p ++ sep ++ join sep ps
  end.

(** A character matched by the class [[,\s]]. *)
Definition is_delim (c : ascii) : bool :=
  Ascii.eqb c "," || is_space c.

Definition push_char (c : ascii) (parts : list string) : list string :=
  match parts with
  | [] => [String c ""]
  | p :: ps => String c p :: ps
  end.

(** [re.split(r'[,\s]+', s)]: the pieces between the maximal runs of
    delimiters, with an empty piece before a leading run and after a
    trailing one.  [in_run] tells that the previous character belongs to
    the run being matched. *)
Fixpoint re_split_from (in_run : bool) (s : string) : list string :=
  match s with
  | "" => [""]
  | String c s' =>
      if is_delim c then
        if in_run then re_split_from true s'
        else "" :: re_split_from true s'
      else push_char c (re_split_from false s')
  end.

Definition re_split (s : string) : list string := re_split_from false s.

End PyStr.

(** ** The text formatters of app.py *)

Import PyStr.

(** [smart_format_text(text)], lines 131-137.  The argument comes from
    [request.form.get] and may be [None]. *)
Definition smart_format_text (text : option string) : string :=
  match text with
  | None => ""
  | Some t =>
      if negb (truthy t) then ""
      else
        let text := title (strip t) in
        replace " Uni" " University" (replace " Uni " " University " text)
  end.

(** [smart_format_skills(text)], lines 139-144. *)
Definition smart_format_skills (text : option string) : string :=
  match text with
  | None => ""
  | Some t =>
      if negb (truthy t) then ""
      else
        let parts := re_split t in
        let clean_parts :=
          map (fun p => title (strip p))
              (filter (fun p => truthy (strip p)) parts) in
        join ", " clean_parts
  end.

(** ** Python values and effects *)

Set Warnings "-register-all".

(** Values produced by [json.loads] and dict literals.  A [float] keeps the
    text of its literal; no code of app.py computes with one.  A dict is
    the list of its items in insertion order, each key once. *)
Inductive pyval : Type :=
| PNone
| PBool (b : bool)
| PInt (z : Z)
| PFloat (literal : string)
| PStr (s : string)
| PList (items : list pyval)
| PDict (items : list (string * pyval)).

(** [d[k] = v] on the items of a dict: the value of an existing key is
    replaced in place, a new key goes to the end. *)
Fixpoint dict_set (k : string) (v : pyval) (items : list (string * pyval))
  : list (string * pyval) :=
  match items with
  | [] => [(k, v)]
  | (k', v') :: rest =>
      if String.eqb k k' then (k, v) :: rest
      else (k', v') :: dict_set k v rest
  end.

Fixpoint dict_lookup (k : string) (items : list (string * pyval))
  : option pyval :=
  match items with
  | [] => None
  | (k', v) :: rest => if String.eqb k k' then Some v else dict_lookup k rest
  end.

(** An exception is represented by its text [str(e)]. *)
Definition exn := string.

Definition type_name (x : pyval) : string :=
  match x with
  | PNone => "NoneType"
  | PBool _ => "bool"
  | PInt _ => "int"
  | PFloat _ => "float"
  | PStr _ => "str"
  | PList _ => "list"
  | PDict _ => "dict"
  end.

(** [x.get(k)] raises [AttributeError] unless [x] is a dict. *)
Definition py_get (x : pyval) (k : string) : exn + option pyval :=
  match x with
  | PDict items => inr (dict_lookup k items)
  | _ => inl ("'" ++ type_name x ++ "' object has no attribute 'get'")
  end.

(** The document found at a path, as PyPDF2 sees it: [PdfReader(f)] raises,
    or it gives pages whose [extract_text()] raises, returns [None] or
    returns a [str]. *)
Definition Page := (exn + option string)%type.

Inductive Doc : Type :=
| Unreadable (e : exn)
| Readable (pages : list Page).

Record ATSScan := mkATSScan {
  scan_user_id : nat;
  scan_score : pyval;
  scan_data : pyval
}.

Record Resume := mkResume {
  resume_user_id : nat;
  full_name : string;
  email : option string;
  phone : option string;
  linkedin : option string;
  summary : string;
  skills : string;
  experience : option string;
  education : string
}.

(** What a request can change or observe outside the Python heap. *)
Record World := mkWorld {
  engine_calls : list string;          (* prompts given to generate_content *)
  log : list string;                   (* logger.error lines *)
  flashes : list (string * string);    (* flash(message, category) *)
  fs : list (string * Doc);            (* files under the upload folder *)
  scans : list ATSScan;                (* committed ATSScan rows *)
  resumes : list Resume                (* committed Resume rows *)
}.

(** A computation may change the world and either returns or raises; the
    changes made before an exception stay. *)
Definition E (A : Type) : Type := World -> (exn + A) * World.

Definition ret {A} (a : A) : E A := fun w => (inr a, w).

Definition raise {A} (e : exn) : E A := fun w => (inl e, w).

Definition bind {A B} (c : E A) (k : A -> E B) : E B :=
  fun w =>
    match c w with
    | (inr a, w') => k a w'
    | (inl e, w') => (inl e, w')
    end.

(** [try: body  except Exception as e: handler(e)]. *)
Definition try_except {A} (body : E A) (handler : exn -> E A) : E A :=
  fun w =>
    match body w with
    | (inr a, w') => (inr a, w')
    | (inl e, w') => handler e w'
    end.

Definition lift {A} (r : exn + A) : E A := fun w => (r, w).

Declare Scope py_scope.
Delimit Scope py_scope with py.
Notation "x <- c ;; k" := (bind c (fun x => k))
  (at level 61, c at next level, right associativity) : py_scope.
Notation "c ;; k" := (bind c (fun _ => k))
  (at level 61, right associativity) : py_scope.
Local Open Scope py_scope.

(** The world after a line is logged, a message is flashed, a prompt is
    given to the engine. *)
Definition logged (line : string) (w : World) : World :=
  mkWorld (engine_calls w) (line :: log w) (flashes w) (fs w) (scans w)
          (resumes w).

Definition flashed (message category : string) (w : World) : World :=
  mkWorld (engine_calls w) (log w) ((message, category) :: flashes w) (fs w)
          (scans w) (resumes w).

Definition called (prompt : string) (w : World) : World :=
  mkWorld (prompt :: engine_calls w) (log w) (flashes w) (fs w) (scans w)
          (resumes w).

Definition with_fs (files : list (string * Doc)) (w : World) : World :=
  mkWorld (engine_calls w) (log w) (flashes w) files (scans w) (resumes w).

Definition logger_error (line : string) : E unit :=
  fun w => (inr tt, logged line w).

Definition flash (message category : string) : E unit :=
  fun w => (inr tt, flashed message category w).

Fixpoint fs_lookup (path : string) (files : list (string * Doc)) : option Doc :=
  match files with
  | [] => None
  | (p, d) :: rest => if String.eqb path p then Some d else fs_lookup path rest
  end.

Definition fs_remove (path : string) (files : list (string * Doc))
  : list (string * Doc) :=
  filter (fun pd => negb (String.eqb path (fst pd))) files.

(** [open(filepath, 'rb')] followed by [PyPDF2.PdfReader(f)]. *)
Definition open_reader (filepath : string) : E (list Page) :=
  fun w =>
    match fs_lookup filepath (fs w) with
    | None =>
        (inl ("[Errno 2] No such file or directory: '" ++ filepath ++ "'"), w)
    | Some (Unreadable e) => (inl e, w)
    | Some (Readable pages) => (inr pages, w)
    end.

(** [x or ""]; also the [str] held by a value known not to be [None]. *)
Definition or_empty (o : option string) : string :=
  match o with
  | None => ""
  | Some t => t
  end.

(** ** extract_text_from_pdf, lines 77-87 *)

(** The loop [for page in reader.pages: text += page.extract_text() or ""]. *)
Fixpoint read_pages (text : string) (pages : list Page) : E string :=
  match pages with
  | [] => ret text
  | page :: rest =>
      t <- lift page ;;
      read_pages (text ++ or_empty t) rest
  end.

Definition extract_text_from_pdf (filepath : string) : E string :=
  try_except
    (pages <- open_reader filepath ;;
     read_pages "" pages)
    (fun e =>
       logger_error ("PDF Error: " ++ e) ;;
       ret "").

(** ** analyze_with_gemini, lines 89-128 *)

Definition nl : string := String "010" "".
Definition dq : string := String "034" "".

(** The fence markers removed from an engine reply. *)
Definition fence : string := "```".
Definition fence_json : string := "```json".

(** Line 117: [text.replace('```json', '').replace('```', '').strip()]. *)
Definition clean_json (text : string) : string :=
  strip (replace fence "" (replace fence_json "" text)).

(** The f-string of lines 93-113. *)
Definition analysis_prompt (resume_text job_desc : string) : string :=
  join nl
    [ "";
      "        Act as a strict Senior Technical Recruiter & ATS System.";
      "        Analyze this resume against the JD.";
      "        ";
      "        Strictly check for:";
      "        1. Grammar/Spelling Errors.";
      "        2. Missing Keywords.";
      "        3. Formatting Issues.";
      "        ";
      "        Output PURE JSON:";
      "        {";
      "            " ++ dq ++ "score" ++ dq ++ ": <0-100>,";
      "            " ++ dq ++ "summary" ++ dq ++ ": " ++ dq
        ++ "<Short strict feedback>" ++ dq ++ ",";
      "            " ++ dq ++ "grammar_errors" ++ dq ++ ": [" ++ dq
        ++ "<error 1>" ++ dq ++ ", " ++ dq ++ "<error 2>" ++ dq ++ "],";
      "            " ++ dq ++ "missing_keywords" ++ dq ++ ": [" ++ dq
        ++ "<keyword 1>" ++ dq ++ ", " ++ dq ++ "<keyword 2>" ++ dq ++ "],";
      "            " ++ dq ++ "improvements" ++ dq ++ ": [" ++ dq
        ++ "<actionable advice 1>" ++ dq ++ ", " ++ dq ++ "<advice 2>" ++ dq
        ++ "]";
      "        }";
      "";
      "        RESUME: " ++ substring 0 4000 resume_text;
      "        JOB DESCRIPTION: " ++ substring 0 1000 job_desc;
      "        " ].

(** The dict returned by the [except] branch, lines 122-128. *)
Definition failure_result (e : exn) : pyval :=
  PDict
    [ ("score", PInt 0);
      ("summary", PStr ("AI Analysis Failed. Error: " ++ e));
      ("grammar_errors", PList []);
      ("missing_keywords", PList []);
      ("improvements", PList [PStr "Check API Key or Internet connection."]) ].

Definition fallback_summary : string :=
  "Passionate student looking for opportunities to apply skills and grow.".

(** The f-string of lines 285-290. *)
Definition summary_prompt (full_name formatted_skills degree college : string)
  : string :=
  join nl
    [ "";
      "                Write a professional 3-line resume summary for a fresher named "
        ++ full_name ++ ".";
      "                Skills: " ++ formatted_skills;
      "                Education: " ++ degree ++ " from " ++ college;
      "                Keep it impactful and professional.";
      "                " ].

(** [f"{x}"] for a form value that may be [None]. *)
Definition fmt (o : option string) : string :=
  match o with
  | None => "None"
  | Some t => t
  end.

(** The request context read by the two views. *)
Record Upload := mkUpload {
  filename : string;
  content : Doc
}.

Record Request := mkRequest {
  method : string;
  url : string;
  files : list (string * Upload);
  form : list (string * string);
  current_user_id : nat
}.

(** [request.form.get(k)] and [request.files[k]]: the first value of the
    key, [None] when the key is absent. *)
Fixpoint multi_get {A} (k : string) (items : list (string * A)) : option A :=
  match items with
  | [] => None
  | (k', v) :: rest => if String.eqb k k' then Some v else multi_get k rest
  end.

Inductive Response : Type :=
| Redirect (target : string)
| RedirectView (endpoint : string) (id : nat)
| Template (name : string) (result : option pyval).

Section Views.

(** [model.generate_content(prompt).text] for the model
    'gemini-flash-latest': the text of the reply, or the exception of the
    call.  Building the model object contacts nothing and is taken to
    succeed. *)
Variable gemini : string -> exn + string.

(** [json.loads]. *)
Variable json_loads : string -> exn + pyval.

(** [werkzeug.utils.secure_filename]. *)
Variable secure_filename : string -> string.

(** [db.session.add(row); db.session.commit()]: [None] when the commit
    succeeds, the exception otherwise. *)
Variable commit_scan : ATSScan -> option exn.
Variable commit_resume : Resume -> option exn.

(** The exception that writing a file at a path raises (no room, no
    right to write, a directory of that name), [None] when the write
    succeeds; the same for [os.remove]. *)
Variable save_error : string -> option exn.
Variable remove_error : string -> option exn.

(** [file.save(filepath)], line 231, outside any [try].  With an empty
    file name the path is the upload folder itself, made at line 29, and
    the write raises [IsADirectoryError]; any other write raises or
    succeeds as [save_error] tells. *)
Definition file_save (filepath : string) (content : Doc) : E unit :=
  fun w =>
    if String.eqb filepath "static/uploads/" then
      (inl "[Errno 21] Is a directory: 'static/uploads/'", w)
    else
      match save_error filepath with
      | Some e => (inl e, w)
      | None =>
          (inr tt,
           with_fs ((filepath, content) :: fs_remove filepath (fs w)) w)
      end.

(** [try: os.remove(filepath)  except: pass], lines 250-253: a removal
    that raises leaves the file where it is. *)
Definition os_remove_quietly (filepath : string) : E unit :=
  fun w =>
    match remove_error filepath with
    | Some _ => (inr tt, w)
    | None => (inr tt, with_fs (fs_remove filepath (fs w)) w)
    end.

Definition generate_content (prompt : string) : E string :=
  fun w => (gemini prompt, called prompt w).

Definition analyze_with_gemini (resume_text job_desc : string) : E pyval :=
  try_except
    (let prompt := analysis_prompt resume_text job_desc in
     text <- generate_content prompt ;;
     lift (json_loads (clean_json text)))
    (fun e =>
       logger_error ("AI Error: " ++ e) ;;
       ret (failure_result e)).

Definition db_add_scan (row : ATSScan) : E unit :=
  fun w =>
    match commit_scan row with
    | Some e => (inl e, w)
    | None => (inr tt, mkWorld (engine_calls w) (log w) (flashes w) (fs w)
                               (scans w ++ [row])%list (resumes w))
    end.

(** The id of the committed row is its position in the table. *)
Definition db_add_resume (row : Resume) : E nat :=
  fun w =>
    match commit_resume row with
    | Some e => (inl e, w)
    | None => (inr (S (List.length (resumes w))),
               mkWorld (engine_calls w) (log w) (flashes w) (fs w)
                       (scans w) (resumes w ++ [row])%list)
    end.

(** ** ats_tool, lines 213-255 *)

Definition ats_tool (request : Request) : E Response :=
  if String.eqb (method request) "POST" then
    match multi_get "resume" (files request) with
    | None =>
        flash "No file part" "danger" ;;
        ret (Redirect (url request))
    | Some file =>
        let jd := multi_get "jd" (form request) in
        if String.eqb (filename file) "" then
          flash "No selected file" "danger" ;;
          ret (Redirect (url request))
        else if truthy (filename file) && truthy_opt jd then
          (* here [jd] is a non-empty str *)
          let filepath := "static/uploads/" ++ secure_filename (filename file) in
          file_save filepath (content file) ;;
          text <- extract_text_from_pdf filepath ;;
          result <-
            (if negb (truthy text) then
               flash "Could not read PDF. Make sure it contains text." "warning" ;;
               ret None
             else
               result <- analyze_with_gemini text (or_empty jd) ;;
               try_except
                 (* the row keeps [result] itself for [json.dumps(result)] *)
                 (score <- lift (py_get result "score") ;;
                  db_add_scan
                    (mkATSScan (current_user_id request)
                               (match score with Some v => v | None => PInt 0 end)
                               result))
                 (fun e => logger_error ("DB Error: " ++ e)) ;;
               ret (Some result)) ;;
          os_remove_quietly filepath ;;
          ret (Template "tools/ats.html" result)
        else ret (Template "tools/ats.html" None)
    end
  else ret (Template "tools/ats.html" None).

(** ** resume_builder, lines 260-313 *)

(** Lines 262-307: the row built from the form, with the summary asked of
    the engine when the form gives none. *)
Definition new_resume (request : Request) : E Resume :=
  let get k := multi_get k (form request) in
  let full_name := smart_format_text (get "full_name") in
  let degree := smart_format_text (get "edu_degree") in
  let college := smart_format_text (get "edu_college") in
  let year := get "edu_year" in
  let grade := get "edu_grade" in
  let formatted_education :=
    degree ++ nl ++ college ++ nl ++ "Year: " ++ fmt year ++ " | Grade: "
      ++ fmt grade in
  let raw_skills := get "skills" in
  let formatted_skills := smart_format_skills raw_skills in
  let experience := get "experience" in
  let summary := get "summary" in
  summary <-
    (if negb (truthy_opt summary) || String.eqb (strip (or_empty summary)) ""
     then
       try_except
         (let prompt :=
            summary_prompt full_name formatted_skills degree college in
          ai_resp <- generate_content prompt ;;
          ret (strip ai_resp))
         (fun _ => ret fallback_summary)
     else ret (or_empty summary)) ;;
  ret (mkResume (current_user_id request) full_name (get "email")
                (get "phone") (get "linkedin") summary formatted_skills
                experience formatted_education).

Definition resume_builder (request : Request) : E Response :=
  if String.eqb (method request) "POST" then
    row <- new_resume request ;;
    id <- db_add_resume row ;;
    ret (RedirectView "resume_view" id)
  else ret (Template "tools/resume_builder.html" None).

End Views.

(** ** Definitions used to state the properties *)

(** [f] holds of every character of [s]. *)
Fixpoint every (f : ascii -> bool) (s : string) : bool :=
  match s with
  | "" => true
  | String c s' => f c && every f s'
  end.

(** The characters of [s] that satisfy [f], in order. *)
Fixpoint keep (f : ascii -> bool) (s : string) : string :=
  match s with
  | "" => ""
  | String c s' => if f c then String c (keep f s') else keep f s'
  end.

Definition not_delim (c : ascii) : bool := negb (is_delim c).

(** The skill list in the words of the specification: the text is cut at
    every run of commas and white space and the empty fragments are
    dropped.  [cur] is the fragment being read. *)
Fixpoint fragments_from (cur : string) (s : string) : list string :=
  match s with
  | "" => if truthy cur then [cur] else []
  | String c s' =>
      if is_delim c then
        if truthy cur then cur :: fragments_from "" s'
        else fragments_from "" s'
      else fragments_from (cur ++ String c "") s'
  end.

Definition fragments (s : string) : list string := fragments_from "" s.

(** The texts returned by the pages, when no [extract_text()] raises. *)
Fixpoint page_texts (pages : list Page) : option (list (option string)) :=
  match pages with
  | [] => Some []
  | inr t :: rest => option_map (cons t) (page_texts rest)
  | inl _ :: _ => None
  end.

(** A form value that is absent, empty or made of white space only. *)
Definition is_blank (o : option string) : bool :=
  match o with
  | None => true
  | Some t => every is_space t
  end.

(** ** A reference decoder and stub collaborators

    The views take [json.loads], the engine and the storage as
    parameters.  The closed examples below run them with the decoder of
    this module, which follows the grammar of JSON documents as
    [json.loads] reads it (objects, arrays, strings with the escapes of
    characters below 128, numbers, [true], [false], [null], [NaN] and the
    infinities).  It differs from [json.loads] in two ways, which is why
    it serves in closed examples only: every failure is reported with the
    one text [decode_error], where [json.loads] tells what it expected and
    where; and an escape of a character from 128 on is a failure, where
    [json.loads] reads it, since the strings of this model have no such
    character. *)

Module Json.

Definition is_ws (c : ascii) : bool :=
  Ascii.eqb c " " || Ascii.eqb c "009" || Ascii.eqb c "010" || Ascii.eqb c "013".

Fixpoint skip_ws (s : string) : string :=
  match s with
  | "" => ""
  | String c s' => if is_ws c then skip_ws s' else s
  end.

Definition is_digit (c : ascii) : bool :=
  let n := nat_of_ascii c in ((48 <=? n) && (n <=? 57))%nat.

(** The longest prefix of digits and what follows it. *)
Fixpoint span_digits (s : string) : string * string :=
  match s with
  | "" => ("", "")
  | String c s' =>
      if is_digit c then
        let (ds, r) := span_digits s' in (String c ds, r)
      else ("", s)
  end.

Fixpoint digits_value (acc : Z) (ds : string) : Z :=
  match ds with
  | "" => acc
  | String c ds' =>
      digits_value (10 * acc + Z.of_nat (nat_of_ascii c - 48)) ds'
  end.

(** A number literal: an optional minus sign, then 0 or a digit sequence
    without leading zero, then an optional fraction and an optional
    exponent.  It is an [int] when it has neither fraction nor exponent. *)
Definition parse_number (s : string) : option (pyval * string) :=
  let (sign, r0) :=
    match s with
    | String "-" r => ("-", r)
    | _ => ("", s)
    end in
  let (int_part, r1) :=
    match r0 with
    | String "0" r => ("0", r)
    | _ => span_digits r0
    end in
  if negb (truthy int_part) then None
  else
    let (frac, r2) :=
      match r1 with
      | String "." r =>
          let (ds, r') := span_digits r in
          if truthy ds then ("." ++ ds, r') else ("", r1)
      | _ => ("", r1)
      end in
    let (expo, r3) :=
      match r2 with
      | String e r =>
          if Ascii.eqb e "e" || Ascii.eqb e "E" then
            let (esign, r') :=
              match r with
              | String "-" r'' => ("-", r'')
              | String "+" r'' => ("+", r'')
              | _ => ("", r)
              end in
            let (ds, r'') := span_digits r' in
            if truthy ds then (String e (esign ++ ds), r'') else ("", r2)
          else ("", r2)
      | _ => ("", r2)
      end in
    if truthy frac || truthy expo then
      Some (PFloat (sign ++ int_part ++ frac ++ expo), r3)
    else
      let v := digits_value 0 int_part in
      Some (PInt (if truthy sign then (- v)%Z else v), r3).

Definition hex_value (c : ascii) : option nat :=
  let n := nat_of_ascii c in
  if ((48 <=? n) && (n <=? 57))%nat then Some (n - 48)
  else if ((97 <=? n) && (n <=? 102))%nat then Some (n - 87)
  else if ((65 <=? n) && (n <=? 70))%nat then Some (n - 55)
  else None.

(** The characters of a string literal after its opening quote. *)
Fixpoint parse_chars (s : string) : option (string * string) :=
  match s with
  | "" => None
  | String "034" r => Some ("", r)
  | String "\" (String e r) =>
      let put c rest :=
        match parse_chars rest with
        | Some (t, r') => Some (String c t, r')
        | None => None
        end in
      match e with
      | "034"%char => put "034"%char r
      | "\"%char => put "\"%char r
      | "/"%char => put "/"%char r
      | "b"%char => put "008"%char r
      | "f"%char => put "012"%char r
      | "n"%char => put "010"%char r
      | "r"%char => put "013"%char r
      | "t"%char => put "009"%char r
      | "u"%char =>
          match r with
          | String a (String b (String c (String d r'))) =>
              match hex_value a, hex_value b, hex_value c, hex_value d with
              | Some 0, Some 0, Some h, Some l =>
                  if (h <? 8)%nat then
                    match parse_chars r' with
                    | Some (t, r'') => Some (String (ascii_of_nat (16 * h + l)) t, r'')
                    | None => None
                    end
                  else None
              | _, _, _, _ => None
              end
          | _ => None
          end
      | _ => None
      end
  | String c r =>
      if (nat_of_ascii c <? 32)%nat then None
      else
        match parse_chars r with
        | Some (t, r') => Some (String c t, r')
        | None => None
        end
  end.

Fixpoint parse_value (fuel : nat) (s : string) {struct fuel}
  : option (pyval * string) :=
  match fuel with
  | O => None
  | S fuel' =>
      match s with
      | String "{" r =>
          match skip_ws r with
          | String "}" r' => Some (PDict [], r')
          | r1 => parse_members fuel' [] r1
          end
      | String "[" r =>
          match skip_ws r with
          | String "]" r' => Some (PList [], r')
          | r1 => parse_items fuel' [] r1
          end
      | String "034" r =>
          match parse_chars r with
          | Some (t, r') => Some (PStr t, r')
          | None => None
          end
      | _ =>
          if startswith "null" s then Some (PNone, substring 4 (String.length s) s)
          else if startswith "true" s then
            Some (PBool true, substring 4 (String.length s) s)
          else if startswith "false" s then
            Some (PBool false, substring 5 (String.length s) s)
          else if startswith "NaN" s then
            Some (PFloat "NaN", substring 3 (String.length s) s)
          else if startswith "Infinity" s then
            Some (PFloat "Infinity", substring 8 (String.length s) s)
          else if startswith "-Infinity" s then
            Some (PFloat "-Infinity", substring 9 (String.length s) s)
          else parse_number s
      end
  end

with parse_items (fuel : nat) (acc : list pyval) (s : string) {struct fuel}
  : option (pyval * string) :=
  match fuel with
  | O => None
  | S fuel' =>
      match parse_value fuel' s with
      | Some (v, r) =>
          match skip_ws r with
          | String "," r' => parse_items fuel' (acc ++ [v])%list (skip_ws r')
          | String "]" r' => Some (PList (acc ++ [v])%list, r')
          | _ => None
          end
      | None => None
      end
  end

with parse_members (fuel : nat) (acc : list (string * pyval)) (s : string)
  {struct fuel} : option (pyval * string) :=
  match fuel with
  | O => None
  | S fuel' =>
      match s with
      | String "034" r =>
          match parse_chars r with
          | Some (k, r1) =>
              match skip_ws r1 with
              | String ":" r2 =>
                  match parse_value fuel' (skip_ws r2) with
                  | Some (v, r3) =>
                      match skip_ws r3 with
                      | String "," r4 =>
                          parse_members fuel' (dict_set k v acc) (skip_ws r4)
                      | String "}" r4 => Some (PDict (dict_set k v acc), r4)
                      | _ => None
                      end
                  | None => None
                  end
              | _ => None
              end
          | None => None
          end
      | _ => None
      end
  end.

Definition decode_error : exn := "JSONDecodeError".

Definition loads (s : string) : exn + pyval :=
  match parse_value (2 * String.length s + 2) (skip_ws s) with
  | Some (v, r) =>
      match skip_ws r with
      | "" => inr v
      | _ => inl decode_error
      end
  | None => inl decode_error
  end.

End Json.

Module Stub.

(** An engine that answers every prompt with [reply]. *)
Definition engine_replies (reply : string) : string -> exn + string :=
  fun _ => inr reply.

(** An engine whose call raises [e]. *)
Definition engine_raises (e : exn) : string -> exn + string :=
  fun _ => inl e.

(** [secure_filename] leaves a plain file name as it is. *)
Definition plain_filename (name : string) : string := name.

Definition commit_ok {A} (row : A) : option exn := None.

(** A file system on which every write and every removal succeeds. *)
Definition save_ok (path : string) : option exn := None.
Definition remove_ok (path : string) : option exn := None.


(** A file system on which removals are refused. *)
Definition remove_denied (path : string) : option exn :=
  Some "[Errno 13] Permission denied".

Definition empty_world : World := mkWorld [] [] [] [] [] [].

End Stub.

(** Replies and requests used in the closed examples. *)
Module Sample.

Definition q (s : string) : string := dq ++ s ++ dq.

(** A reply that fits the contract, and the same between fence lines. *)
Definition payload : string :=
  "{" ++ q "score" ++ ":82," ++ q "summary" ++ ":" ++ q "Solid profile" ++ ","
      ++ q "grammar_errors" ++ ":[]," ++ q "missing_keywords" ++ ":["
      ++ q "Go" ++ "]," ++ q "improvements" ++ ":[" ++ q "Add metrics" ++ "]}".

Definition fenced_reply : string := "```json" ++ nl ++ payload ++ nl ++ "```".

Definition payload_value : pyval :=
  PDict [ ("score", PInt 82);
          ("summary", PStr "Solid profile");
          ("grammar_errors", PList []);
          ("missing_keywords", PList [PStr "Go"]);
          ("improvements", PList [PStr "Add metrics"]) ].

(** A reply with one field of the contract and one field outside it. *)
Definition partial_reply : string :=
  "{" ++ q "score" ++ ": 70, " ++ q "debug" ++ ": true}".

(** A reply in prose, and one that is JSON but no object. *)
Definition prose_reply : string := "I am sorry, I cannot rate this resume.".
Definition list_reply : string := "[82]".

(** An upload whose only page is a scanned image, and the request that
    sends it. *)
Definition scanned_upload : Upload :=
  mkUpload "cv.pdf" (Readable [inr None]).

Definition scan_request : Request :=
  mkRequest "POST" "/tools/ats" [("resume", scanned_upload)]
            [("jd", "Looking for Go developer")] 1.

Definition draft_request (summary_field : string) : Request :=
  mkRequest "POST" "/tools/resume-builder" []
            [ ("full_name", "jane doe"); ("edu_degree", "b.sc physics");
              ("edu_college", "delhi college"); ("edu_year", "2024");
              ("edu_grade", "A"); ("skills", "python, go");
              ("summary", summary_field) ] 1.

End Sample.

(** ** Definitions used to state further properties *)

(** The text of a page that returned: nothing for [None]. *)
Definition returned_text (t : option string) : string :=
  match t with
  | Some x => x
  | None => ""
  end.

(** The text that the extractor gives for a document. *)
Definition doc_text (d : Doc) : string :=
  match d with
  | Unreadable _ => ""
  | Readable pages =>
      match page_texts pages with
      | Some ts => String.concat "" (map returned_text ts)
      | None => ""
      end
  end.

(** A character of the 7-bit range, on which the model of [str] is that
    of CPython. *)
Definition is_ascii7 (c : ascii) : bool := (nat_of_ascii c <? 128)%nat.

Definition first_char (s : string) : option ascii :=
  match s with
  | "" => None
  | String c _ => Some c
  end.

Fixpoint last_char (s : string) : option ascii :=
  match s with
  | "" => None
  | String c "" => Some c
  | String _ s' => last_char s'
  end.

(** [c], when there is one, is no white space. *)
Definition not_space (c : option ascii) : bool :=
  match c with
  | Some c => negb (is_space c)
  | None => true
  end.

(** The value that the analysis gives for an engine and a decoder. *)
Definition analysis_value (gemini : string -> exn + string)
  (json_loads : string -> exn + pyval) (resume_text job_desc : string)
  : pyval :=
  match gemini (analysis_prompt resume_text job_desc) with
  | inl e => failure_result e
  | inr reply =>
      match json_loads (clean_json reply) with
      | inl e => failure_result e
      | inr v => v
      end
  end.

(** The path at which an upload is saved. *)
Definition upload_path (secure_filename : string -> string) (file : Upload)
  : string :=
  "static/uploads/" ++ secure_filename (filename file).

(** The row offered to the session for a result that is a dict. *)
Definition scan_row (user_id : nat) (items : list (string * pyval)) : ATSScan :=
  mkATSScan user_id
            (match dict_lookup "score" items with
             | Some v => v
             | None => PInt 0
             end)
            (PDict items).

(** A stored scan is well formed when its data is a dict and its score is
    the "score" of that dict, or 0 when the dict has none. *)
Definition scan_well_formed (row : ATSScan) : Prop :=
  exists items, row = scan_row (scan_user_id row) items.

(** ** The other views of app.py *)

(** The answers of the views below: a redirect to a view, or a page with
    what it is given to show. *)
Inductive Shown : Type :=
| ToView (endpoint : string)
| ResumePage (name : string) (resume : Resume)
| DashboardPage (name : string) (scans : list (ATSScan * pyval))
                (resumes : list Resume)
| AuthPage (name : string).

Definition not_found : exn := "404 Not Found".

(** [Resume.query.get_or_404(id)]: the row whose id is [id], by the
    numbering of [db_add_resume]; the exception of [abort(404)] when there
    is none. *)
Definition get_resume_or_404 (id : nat) : E Resume :=
  fun w =>
    match id with
    | O => (inl not_found, w)
    | S k =>
        match nth_error (resumes w) k with
        | Some row => (inr row, w)
        | None => (inl not_found, w)
        end
    end.

(** [resume_view(id)], lines 317-322, for the user logged in. *)
Definition resume_view (current_user_id id : nat) : E Shown :=
  resume <- get_resume_or_404 id ;;
  if negb (Nat.eqb (resume_user_id resume) current_user_id) then
    flash "Unauthorized" "danger" ;;
    ret (ToView "dashboard")
  else ret (ResumePage "tools/resume_view.html" resume).

(** [query.filter_by(user_id=...).order_by(created_at.desc()).limit(5)]:
    a table lists its rows in the order of their commits, which is the
    order of [created_at]. *)
Definition recent_of {A} (owner : A -> nat) (user_id : nat) (table : list A)
  : list A :=
  firstn 5 (rev (filter (fun row => Nat.eqb (owner row) user_id) table)).

Section Dashboard.

Variable json_loads : string -> exn + pyval.

(** [json.dumps], which wrote the column [data] of a scan. *)
Variable json_dumps : pyval -> string.

(** The body of the loop of lines 201-206: the summary shown for a scan. *)
Definition scan_summary (scan : ATSScan) : pyval :=
  match json_loads (json_dumps (scan_data scan)) with
  | inr data =>
      match py_get data "summary" with
      | inr (Some v) => v
      | inr None => PStr "No summary"
      | inl _ => PStr "Error loading data"
      end
  | inl _ => PStr "Error loading data"
  end.

(** [dashboard()], lines 194-208, for the user logged in. *)
Definition dashboard (current_user_id : nat) : E Shown :=
  fun w =>
    let scans := recent_of scan_user_id current_user_id (scans w) in
    let resumes := recent_of resume_user_id current_user_id (resumes w) in
    let scan_data := map (fun scan => (scan, scan_summary scan)) scans in
    (inr (DashboardPage "dashboard.html" scan_data resumes), w).

End Dashboard.

(** The accounts and the session of the browser. *)
Record User := mkUser {
  user_name : option string;
  user_email : option string;
  user_password_hash : string
}.

Record Site := mkSite {
  world : World;
  users : list User;                   (* committed User rows; ids from 1 *)
  session : option nat                 (* id of the user logged in *)
}.

Definition opt_eqb (a b : option string) : bool :=
  match a, b with
  | Some x, Some y => String.eqb x y
  | None, None => true
  | _, _ => false
  end.

(** [User.query.filter_by(email=email).first()] with the id of the row; a
    missing [email] selects the rows without one. *)
Fixpoint first_user_from (id : nat) (email : option string) (table : list User)
  : option (nat * User) :=
  match table with
  | [] => None
  | user :: rest =>
      if opt_eqb (user_email user) email then Some (id, user)
      else first_user_from (S id) email rest
  end.

Definition first_user (email : option string) (table : list User)
  : option (nat * User) :=
  first_user_from 1 email table.

Definition site_flash (message category : string) (s : Site) : Site :=
  mkSite (flashed message category (world s)) (users s) (session s).

Section Accounts.

(** [werkzeug.security]: the hash of a password (with the salt drawn for
    this call), the check of a password against a hash; either may raise,
    as on a password that is [None]. *)
Variable generate_password_hash : option string -> exn + string.
Variable check_password_hash : string -> option string -> exn + bool.

(** [db.session.add(new_user); db.session.commit()]. *)
Variable commit_user : User -> option exn.

(** [index()], lines 149-152. *)
Definition index (s : Site) : (exn + Shown) * Site :=
  match session s with
  | Some _ => (inr (ToView "dashboard"), s)
  | None => (inr (ToView "auth_route"), s)
  end.

(** [logout()], lines 188-190. *)
Definition logout (s : Site) : (exn + Shown) * Site :=
  (inr (ToView "auth_route"), mkSite (world s) (users s) None).

(** [auth_route()], lines 156-184. *)
Definition auth_route (request : Request) (s : Site) : (exn + Shown) * Site :=
  match session s with
  | Some _ => (inr (ToView "dashboard"), s)
  | None =>
      if String.eqb (method request) "POST" then
        let action := multi_get "action" (form request) in
        let email := multi_get "email" (form request) in
        let password := multi_get "password" (form request) in
        if opt_eqb action (Some "signup") then
          match first_user email (users s) with
          | Some _ =>
              (inr (AuthPage "auth.html"),
               site_flash "Email already registered!" "danger" s)
          | None =>
              match generate_password_hash password with
              | inl e => (inl e, s)
              | inr hashed_pw =>
                  let new_user :=
                    mkUser (multi_get "name" (form request)) email hashed_pw in
                  match commit_user new_user with
                  | Some e => (inl e, s)
                  | None =>
                      (inr (ToView "dashboard"),
                       mkSite (world s) (users s ++ [new_user])%list
                              (Some (S (List.length (users s)))))
                  end
              end
          end
        else if opt_eqb action (Some "login") then
          match first_user email (users s) with
          | Some (id, user) =>
              match check_password_hash (user_password_hash user) password with
              | inl e => (inl e, s)
              | inr true =>
                  (inr (ToView "dashboard"),
                   mkSite (world s) (users s) (Some id))
              | inr false =>
                  (inr (AuthPage "auth.html"),
                   site_flash "Login Failed. Check email or password." "danger" s)
              end
          | None =>
              (inr (AuthPage "auth.html"),
               site_flash "Login Failed. Check email or password." "danger" s)
          end
        else (inr (AuthPage "auth.html"), s)
      else (inr (AuthPage "auth.html"), s)
  end.

End Accounts.

(** The draft that [new_resume] builds, read off the form and the
    engine. *)
Definition draft_row (gemini : string -> exn + string) (request : Request)
  : Resume :=
  let get k := multi_get k (form request) in
  let full_name := smart_format_text (get "full_name") in
  let degree := smart_format_text (get "edu_degree") in
  let college := smart_format_text (get "edu_college") in
  let formatted_skills := smart_format_skills (get "skills") in
  mkResume (current_user_id request) full_name (get "email") (get "phone")
           (get "linkedin")
           (if is_blank (get "summary") then
              match gemini (summary_prompt full_name formatted_skills
                                           degree college) with
              | inr reply => strip reply
              | inl _ => fallback_summary
              end
            else or_empty (get "summary"))
           formatted_skills (get "experience")
           (degree ++ nl ++ college ++ nl ++ "Year: " ++ fmt (get "edu_year")
              ++ " | Grade: " ++ fmt (get "edu_grade")).

(** Further requests used in closed examples. *)
Module Cases.

(** A document of three pages, the second without text. *)
Definition text_upload : Upload :=
  mkUpload "cv.pdf"
           (Readable [ inr (Some "Experienced backend engineer, ");
                       inr None;
                       inr (Some "Python, Go") ]).

Definition text_request : Request :=
  mkRequest "POST" "/tools/ats" [("resume", text_upload)]
            [("jd", "Looking for Go developer")] 7.

(** Requests that the view turns away. *)
Definition no_file_request : Request :=
  mkRequest "POST" "/tools/ats" [] [("jd", "Looking for Go developer")] 7.

Definition unnamed_file_request : Request :=
  mkRequest "POST" "/tools/ats" [("resume", mkUpload "" (Readable []))]
            [("jd", "Looking for Go developer")] 7.

Definition no_jd_request : Request :=
  mkRequest "POST" "/tools/ats" [("resume", text_upload)] [("jd", "")] 7.

(** A world that already holds a file under the name of the upload. *)
Definition busy_world : World :=
  mkWorld [] [] [] [("static/uploads/cv.pdf", Unreadable "old file")] [] [].

Definition payload_items : list (string * pyval) :=
  [ ("score", PInt 82);
    ("summary", PStr "Solid profile");
    ("grammar_errors", PList []);
    ("missing_keywords", PList [PStr "Go"]);
    ("improvements", PList [PStr "Add metrics"]) ].

(** An encoder that knows the one value of the examples. *)
Definition dumps_payload (v : pyval) : string := Sample.payload.

(** Hashing by a mark put before the password, for the examples. *)
Definition mark_hash (password : option string) : exn + string :=
  match password with
  | Some p => inr ("hash:" ++ p)
  | None => inl "'NoneType' object has no attribute 'encode'"
  end.

Definition mark_check (hash : string) (password : option string)
  : exn + bool :=
  match password with
  | Some p => inr (String.eqb hash ("hash:" ++ p))
  | None => inl "'NoneType' object has no attribute 'encode'"
  end.

Definition signup_request : Request :=
  mkRequest "POST" "/auth" []
            [ ("action", "signup"); ("name", "Jane"); ("email", "jane@x.org");
              ("password", "s3cret") ] 0.

Definition login_request (password : string) : Request :=
  mkRequest "POST" "/auth" []
            [ ("action", "login"); ("email", "jane@x.org");
              ("password", password) ] 0.

Definition empty_site : Site := mkSite Stub.empty_world [] None.

(** A folder with a document of four pages, the second without text and
    the third with an empty one; a document whose second page is corrupt;
    a file that is no PDF. *)
Definition shelf : World :=
  mkWorld [] [] []
          [ ("cv.pdf",
             Readable [ inr (Some "Experienced backend engineer, ");
                        inr None;
                        inr (Some "");
                        inr (Some "Python, Go") ]);
            ("torn.pdf",
             Readable [ inr (Some "Page one. ");
                        inl "corrupt page object";
                        inr (Some "Page three.") ]);
            ("noise.pdf", Unreadable "EOF marker not found") ]
          [] [].



End Cases.

(** * Properties *)

(** ** Facts about the string primitives *)

Section StringFacts.

Lemma startswith_app_l (p q s : string) :
  startswith (p ++ q) s = true -> startswith p s = true.
Proof.
  revert s; induction p as [|a p IH]; intros s H; [now destruct s|].
  destruct s as [|b s]; simpl in *; [discriminate|].
  apply andb_true_iff in H as [Hab Hrest].
  now rewrite Hab, (IH _ Hrest).
Qed.

Lemma contains_app_l (p q s : string) :
  contains (p ++ q) s = true -> contains p s = true.
Proof.
  induction s as [|c s IH]; simpl; intros H.
  - rewrite orb_false_r in *. now apply startswith_app_l with q.
  - apply orb_true_iff in H as [H|H].
    + now rewrite (startswith_app_l _ _ _ H).
    + rewrite (IH H). apply orb_true_r.
Qed.

Lemma contains_cons_false (p : string) (c : ascii) (s : string) :
  contains p (String c s) = false ->
  startswith p (String c s) = false /\ contains p s = false.
Proof.
  simpl. intros H. now apply orb_false_iff in H.
Qed.

(** Replacing a pattern that does not occur changes nothing. *)
Lemma replace_absent (old new s : string) :
  old <> "" -> contains old s = false -> replace old new s = s.
Proof.
  intros Hold. unfold replace.
  induction s as [|c s IH]; intros H.
  - simpl. now destruct old.
  - apply contains_cons_false in H as [Hhd Htl].
    cbn [replace_from]. rewrite Hhd. f_equal. now apply IH.
Qed.

End StringFacts.

(** ** smart_format_text *)

(** C1 (evaluation at the failing input).  The second rewrite fires again
    on the text the formatter itself produced: formatting "a uni" gives
    "A University", and formatting that gives "A Universityversity"; a
    text that already holds " University" is damaged by the first pass. *)
Theorem smart_format_text_refires_on_University :
  smart_format_text (Some "a uni") = "A University" /\
  smart_format_text (Some (smart_format_text (Some "a uni")))
    = "A Universityversity" /\
  smart_format_text (Some (smart_format_text (Some "a uni")))
    <> smart_format_text (Some "a uni") /\
  smart_format_text (Some "delhi university") = "Delhi Universityversity" /\
  smart_format_text (Some "delhi uni campus") = "Delhi Universityversity Campus".
Proof. repeat split; try reflexivity. discriminate. Qed.

(** C10 (as amended).  The rewrite of "Uni" needs a space before it: when
    the stripped, title-cased text holds no " Uni" the formatter returns
    that text unchanged, and when it begins with "Uni" the result begins
    with the same "Uni", the two replacements acting on the rest only. *)
Theorem smart_format_text_Uni_needs_space (t : string) :
  (contains " Uni" (title (strip t)) = false ->
   smart_format_text (Some t) = title (strip t)) /\
  (forall rest : string,
     title (strip t) = "Uni" ++ rest ->
     smart_format_text (Some t) =
     "Uni" ++ replace " Uni" " University"
                (replace " Uni " " University " rest)).
Proof.
  split.
  - intros H. destruct t as [|c t]; [reflexivity|].
    cbn [smart_format_text truthy negb].
    rewrite (replace_absent " Uni " " University "); [|discriminate|].
    + now apply replace_absent.
    + destruct (contains " Uni " (title (strip (String c t)))) eqn:E; [|reflexivity].
      apply (contains_app_l " Uni" " ") in E. congruence.
  - intros rest H. destruct t as [|c t]; [discriminate H|].
    cbn [smart_format_text truthy negb]. rewrite H. reflexivity.
Qed.

Lemma smart_format_text_Uni_needs_space_witness :
  smart_format_text (Some "uni of delhi") = "Uni Of Delhi" /\
  smart_format_text (Some "uni, delhi uni") = "Uni, Delhi University".
Proof.
  split.
  - apply (proj1 (smart_format_text_Uni_needs_space "uni of delhi")).
    reflexivity.
  - apply (proj2 (smart_format_text_Uni_needs_space "uni, delhi uni")
             ", Delhi Uni").
    reflexivity.
Defined.

(** C10 (counterexample to the claim as stated).  In "a uni, b" the token
    "Uni" is followed by a comma, and it is rewritten all the same because
    a space precedes it. *)
Lemma smart_format_text_rewrites_punctuated_Uni :
  contains "Uni," (title (strip "a uni, b")) = true /\
  smart_format_text (Some "a uni, b") = "A University, B" /\
  contains "Uni," (smart_format_text (Some "a uni, b")) = false.
Proof. repeat split; reflexivity. Qed.

(** ** smart_format_skills *)

Section SkillFacts.

Lemma append_empty_r (s : string) : s ++ "" = s.
Proof. induction s as [|c s IH]; simpl; [reflexivity|now rewrite IH]. Qed.

Lemma append_assoc (a b c : string) : (a ++ b) ++ c = a ++ (b ++ c).
Proof. induction a as [|x a IH]; simpl; [reflexivity|now rewrite IH]. Qed.

Lemma every_app (f : ascii -> bool) (a b : string) :
  every f (a ++ b) = every f a && every f b.
Proof.
  induction a as [|x a IH]; simpl; [reflexivity|].
  now rewrite IH, andb_assoc.
Qed.

(** [re.split] never returns an empty list. *)
Lemma re_split_from_cons (b : bool) (s : string) :
  exists h t, re_split_from b s = h :: t.
Proof.
  revert b; induction s as [|c s IH]; intros b; simpl.
  - now exists "", [].
  - destruct (is_delim c).
    + destruct b; [apply IH|]. now exists "", (re_split_from true s).
    + destruct (IH false) as (h & t & E). rewrite E. simpl.
      now exists (String c h), t.
Qed.

(** Inside a run of delimiters [re.split] only omits the empty piece that
    it gives at the start of a run. *)
Lemma filter_re_split_from_run (s : string) :
  filter truthy (re_split_from true s) = filter truthy (re_split_from false s).
Proof. destruct s as [|c s]; simpl; [reflexivity|]. now destruct (is_delim c). Qed.

(** The pieces that survive the filter are the fragments of the
    specification, whatever was read before the text. *)
Lemma fragments_from_re_split (s cur : string) :
  fragments_from cur s =
  match re_split_from false s with
  | h :: t => filter truthy ((cur ++ h) :: t)
  | [] => []
  end.
Proof.
  revert cur; induction s as [|c s IH]; intros cur; simpl.
  - now rewrite append_empty_r.
  - destruct (is_delim c) eqn:Hc.
    + rewrite append_empty_r, filter_re_split_from_run.
      specialize (IH "").
      destruct (re_split_from false s) as [|h t] eqn:E.
      * destruct (re_split_from_cons false s) as (h & t & E'). congruence.
      * simpl in IH. simpl. rewrite <- IH. now destruct (truthy cur).
    + specialize (IH (cur ++ String c "")).
      destruct (re_split_from false s) as [|h t] eqn:E.
      * destruct (re_split_from_cons false s) as (h & t & E'). congruence.
      * simpl. rewrite IH, append_assoc. reflexivity.
Qed.

Lemma fragments_re_split (s : string) :
  fragments s = filter truthy (re_split s).
Proof.
  unfold fragments, re_split. rewrite fragments_from_re_split.
  now destruct (re_split_from false s).
Qed.

(** No piece of [re.split] holds a delimiter. *)
Lemma re_split_from_no_delim (b : bool) (s : string) :
  Forall (fun p => every not_delim p = true) (re_split_from b s).
Proof.
  revert b; induction s as [|c s IH]; intros b; simpl.
  - now repeat constructor.
  - destruct (is_delim c) eqn:Hc.
    + destruct b; [apply IH|]. constructor; [reflexivity|apply IH].
    + specialize (IH false).
      destruct (re_split_from false s) as [|h t]; simpl.
      * repeat constructor. simpl. unfold not_delim. now rewrite Hc.
      * inversion IH; subst. constructor; [|assumption].
        simpl. unfold not_delim at 1. now rewrite Hc.
Qed.

Lemma not_delim_not_space (c : ascii) :
  not_delim c = true -> is_space c = false.
Proof.
  unfold not_delim, is_delim. intros H.
  apply negb_true_iff, orb_false_iff in H. tauto.
Qed.

Lemma rstrip_no_space (p : string) :
  every not_delim p = true -> rstrip p = p.
Proof.
  induction p as [|c p IH]; simpl; [reflexivity|].
  intros H. apply andb_true_iff in H as [Hc Hp].
  rewrite (IH Hp), (not_delim_not_space _ Hc). now destruct p.
Qed.

(** Trimming does nothing to a piece without delimiters. *)
Lemma strip_no_delim (p : string) :
  every not_delim p = true -> strip p = p.
Proof.
  intros H. unfold strip.
  assert (lstrip p = p) as ->; [|now apply rstrip_no_space].
  destruct p as [|c p]; [reflexivity|]. simpl in *.
  apply andb_true_iff in H as [Hc _].
  now rewrite (not_delim_not_space _ Hc).
Qed.

(** On such pieces the filter of line 143 keeps the non-empty ones. *)
Lemma filter_strip_pieces (l : list string) :
  Forall (fun p => every not_delim p = true) l ->
  filter (fun p => truthy (strip p)) l = filter truthy l.
Proof.
  induction 1 as [|p l Hp _ IH]; simpl; [reflexivity|].
  now rewrite (strip_no_delim _ Hp), IH.
Qed.

(** The fragments are not empty, hold no delimiter, and together hold the
    characters of the text that are not delimiters. *)
Lemma fragments_from_sound (s cur : string) :
  every not_delim cur = true ->
  Forall (fun f => f <> "" /\ every not_delim f = true) (fragments_from cur s)
  /\ join "" (fragments_from cur s) = cur ++ keep not_delim s.
Proof.
  revert cur; induction s as [|c s IH]; intros cur Hcur; simpl.
  - rewrite append_empty_r. destruct cur as [|x cur]; simpl; [now split|].
    split; [|reflexivity]. repeat constructor; [discriminate|assumption].
  - assert (not_delim c = negb (is_delim c)) as -> by reflexivity.
    destruct (is_delim c) eqn:Hc; simpl.
    + destruct (IH "" eq_refl) as [F J]. simpl in J.
      destruct cur as [|x cur]; simpl; [now split|].
      split; [constructor; [split; [discriminate|assumption]|assumption]|].
      destruct (fragments_from "" s) as [|f fs]; simpl in *.
      * now rewrite <- J, append_empty_r.
      * now rewrite J.
    + assert (every not_delim (cur ++ String c "") = true) as H'.
      { rewrite every_app, Hcur. simpl. unfold not_delim. now rewrite Hc. }
      destruct (IH _ H') as [F J]. split; [assumption|].
      now rewrite J, append_assoc.
Qed.

End SkillFacts.


(** ** The fence cleanup of analyze_with_gemini *)

Section FenceFacts.

Lemma startswith_split (p s : string) :
  startswith p s = true -> exists r, s = p ++ r.
Proof.
  revert s; induction p as [|a p IH]; intros s H; [now exists s|].
  destruct s as [|b s]; simpl in H; [discriminate|].
  apply andb_true_iff in H as [Hab Hrest].
  apply Ascii.eqb_eq in Hab as ->.
  destruct (IH _ Hrest) as [r ->]. now exists r.
Qed.

Lemma startswith_app_r (p s t : string) :
  startswith p s = true -> startswith p (s ++ t) = true.
Proof.
  revert s; induction p as [|a p IH]; intros s H; [reflexivity|].
  destruct s as [|b s]; simpl in *; [discriminate|].
  apply andb_true_iff in H as [Hab Hrest].
  now rewrite Hab, (IH _ Hrest).
Qed.

Lemma contains_app_r (p s t : string) :
  contains p s = true -> contains p (s ++ t) = true.
Proof.
  induction s as [|c s IH]; intros H.
  - simpl in H. rewrite orb_false_r in H.
    apply (startswith_app_r _ _ t) in H. simpl in H.
    destruct t; simpl; now rewrite H.
  - simpl in H. apply orb_true_iff in H as [H|H].
    + apply (startswith_app_r _ _ t) in H. simpl in *. now rewrite H.
    + simpl. rewrite (IH H). apply orb_true_r.
Qed.

Lemma contains_app_skip (p pre s : string) :
  contains p s = true -> contains p (pre ++ s) = true.
Proof.
  intros H. induction pre as [|c pre IH]; [assumption|].
  simpl. rewrite IH. apply orb_true_r.
Qed.

(** [lstrip] and [rstrip] cut the text at one end. *)
Lemma lstrip_suffix (s : string) : exists pre, s = pre ++ lstrip s.
Proof.
  induction s as [|c s [pre IH]]; [now exists ""|].
  simpl. destruct (is_space c).
  - exists (String c pre). simpl. now rewrite <- IH.
  - now exists "".
Qed.

Lemma rstrip_prefix (s : string) : exists suf, s = rstrip s ++ suf.
Proof.
  induction s as [|c s [suf IH]]; [now exists ""|].
  simpl. destruct (rstrip s) as [|d r] eqn:E.
  - destruct (is_space c).
    + now exists (String c s).
    + exists suf. simpl in *. now rewrite <- IH.
  - exists suf. simpl in *. now rewrite <- IH.
Qed.

Lemma contains_strip (p s : string) :
  contains p (strip s) = true -> contains p s = true.
Proof.
  unfold strip. intros H.
  destruct (lstrip_suffix s) as [pre E1].
  destruct (rstrip_prefix (lstrip s)) as [suf E2].
  rewrite E1. apply contains_app_skip.
  rewrite E2. now apply contains_app_r.
Qed.

Lemma lstrip_head (s : string) :
  match lstrip s with
  | "" => True
  | String c _ => is_space c = false
  end.
Proof.
  induction s as [|c s IH]; simpl; [exact I|].
  destruct (is_space c) eqn:E; [assumption|]. simpl. assumption.
Qed.

Lemma rstrip_rstrip (s : string) : rstrip (rstrip s) = rstrip s.
Proof.
  induction s as [|c s IH]; [reflexivity|].
  simpl. destruct (rstrip s) as [|d r] eqn:E.
  - destruct (is_space c) eqn:Hc; [reflexivity|]. simpl. now rewrite Hc.
  - change (rstrip (String c (String d r))) with
      (match rstrip (String d r) with
       | "" => if is_space c then "" else String c ""
       | String a r' => String c (String a r')
       end).
    now rewrite IH.
Qed.

(** A stripped text is not changed by stripping it again. *)
Lemma strip_strip (s : string) : strip (strip s) = strip s.
Proof.
  unfold strip.
  assert (lstrip (rstrip (lstrip s)) = rstrip (lstrip s)) as ->;
    [|apply rstrip_rstrip].
  pose proof (lstrip_head s) as H.
  destruct (lstrip s) as [|c y]; [reflexivity|].
  cbn [rstrip]. destruct (rstrip y); rewrite ?H; cbn [lstrip]; now rewrite H.
Qed.

(** An occurrence found at the head is passed over. *)
Lemma replace_fence_hit (s : string) :
  replace fence "" (fence ++ s) = replace fence "" s.
Proof. reflexivity. Qed.

Lemma replace_miss (old new : string) (c : ascii) (s : string) :
  startswith old (String c s) = false ->
  replace old new (String c s) = String c (replace old new s).
Proof. intros H. unfold replace. cbn [replace_from]. now rewrite H. Qed.

(** After the removal no fence is left, and the text that remains begins
    with no more backticks than the text given. *)
Lemma replace_fence_invariant (n : nat) (s : string) :
  String.length s <= n ->
  contains fence (replace fence "" s) = false /\
  (startswith "`" (replace fence "" s) = true -> startswith "`" s = true) /\
  (startswith "``" (replace fence "" s) = true -> startswith "``" s = true).
Proof.
  revert s; induction n as [|n IH]; intros s Hlen.
  - destruct s; [|simpl in Hlen; lia]. now repeat split.
  - destruct (startswith fence s) eqn:Hhit.
    + destruct (startswith_split _ _ Hhit) as [r ->].
      rewrite replace_fence_hit.
      destruct (IH r) as (H1 & _ & _); [simpl in Hlen; lia|].
      split; [assumption|]. now split.
    + destruct s as [|c s]; [now repeat split|].
      rewrite (replace_miss _ _ _ _ Hhit).
      destruct (IH s) as (H1 & H2 & H3); [simpl in Hlen; lia|].
      split; [|split].
      * cbn [contains]. rewrite H1, orb_false_r.
        destruct (startswith fence (String c (replace fence "" s))) eqn:E;
          [|reflexivity].
        exfalso. simpl in E.
        apply andb_true_iff in E as [Ec E].
        assert (startswith "``" s = true) as Hs by (apply H3; exact E).
        simpl in Hhit. rewrite Ec in Hhit. simpl in Hhit, Hs.
        congruence.
      * simpl. now rewrite !andb_true_r.
      * simpl. intros E. apply andb_true_iff in E as [Ec E].
        rewrite Ec. simpl. apply H2. exact E.
Qed.

Lemma replace_fence_clean (s : string) :
  contains fence (replace fence "" s) = false.
Proof. now apply (replace_fence_invariant (String.length s)). Qed.

End FenceFacts.

Section FencedReply.

(** A pattern that begins with a fence is not found before the end of a
    text without fence that a newline follows. *)
Lemma replace_through_payload (rest new p q : string) :
  contains fence p = false ->
  replace (fence ++ rest) new (p ++ nl ++ q) =
  p ++ replace (fence ++ rest) new (nl ++ q).
Proof.
  induction p as [|c p IH]; intros H; [reflexivity|].
  apply contains_cons_false in H as [Hhd Htl].
  change (String c p ++ nl ++ q) with (String c (p ++ nl ++ q)).
  rewrite replace_miss; [simpl; f_equal; now apply IH|].
  destruct (startswith (fence ++ rest) (String c (p ++ nl ++ q))) eqn:E;
    [exfalso|reflexivity].
  apply startswith_app_l in E.
  destruct p as [|d [|e p]]; simpl in E, Hhd.
  - now rewrite andb_false_r in E.
  - now rewrite !andb_false_r in E.
  - congruence.
Qed.

Lemma rstrip_app_nl (x : string) : rstrip (x ++ nl) = rstrip x.
Proof.
  induction x as [|c x IH]; [reflexivity|].
  change (String c x ++ nl) with (String c (x ++ nl)).
  cbn [rstrip]. now rewrite IH.
Qed.

Lemma strip_between_nl (p : string) : strip (nl ++ p ++ nl) = strip p.
Proof.
  unfold strip. change (lstrip (nl ++ p ++ nl)) with (lstrip (p ++ nl)).
  induction p as [|c p IH]; [reflexivity|].
  change (String c p ++ nl) with (String c (p ++ nl)).
  cbn [lstrip]. destruct (is_space c); [exact IH|].
  apply (rstrip_app_nl (String c p)).
Qed.

(** The cleanup of a reply that wraps a payload between the two fence
    lines leaves the stripped payload. *)
Lemma clean_json_fenced (p : string) :
  contains fence p = false ->
  clean_json (fence_json ++ nl ++ p ++ nl ++ fence) = strip p.
Proof.
  intros H. unfold clean_json.
  assert (replace fence_json "" (fence_json ++ nl ++ p ++ nl ++ fence)
          = nl ++ p ++ nl ++ fence) as ->.
  { change (replace fence_json "" (fence_json ++ nl ++ p ++ nl ++ fence))
      with (String "010" (replace (fence ++ "json") "" (p ++ nl ++ fence))).
    now rewrite replace_through_payload. }
  assert (replace fence "" (nl ++ p ++ nl ++ fence) = nl ++ p ++ nl) as ->.
  { change (replace fence "" (nl ++ p ++ nl ++ fence))
      with (String "010" (replace (fence ++ "") "" (p ++ nl ++ fence))).
    now rewrite replace_through_payload. }
  apply strip_between_nl.
Qed.

End FencedReply.

(** ** extract_text_from_pdf *)

(** Closes a goal [exists a w', run = (inr a, w') /\ facts] when the run
    computes and the facts hold by computation. *)
Ltac run_computes :=
  eexists _, _; split; [reflexivity|]; now repeat split.

(** The same when the facts need a further step. *)
Ltac run_computes_then tac :=
  eexists _, _; split; [reflexivity|]; repeat split; tac.

Section ExtractFacts.

Lemma join_empty_cons (p : string) (ps : list string) :
  join "" (p :: ps) = p ++ join "" ps.
Proof. destruct ps; simpl; [now rewrite append_empty_r|reflexivity]. Qed.

(** The loop leaves the world as it is; it returns the text read so far
    followed by the texts of the pages, or raises with the first page
    that does. *)
Lemma read_pages_spec (pages : list Page) (text : string) (w : World) :
  exists r, read_pages text pages w = (r, w) /\
  match page_texts pages with
  | Some ts => r = inr (text ++ join "" (map or_empty ts))
  | None => exists e, r = inl e
  end.
Proof.
  revert text; induction pages as [|[e|t] pages IH]; intros text.
  - exists (inr text). simpl. now rewrite append_empty_r.
  - exists (inl e). split; [reflexivity|]. now exists e.
  - destruct (IH (text ++ or_empty t)) as (r & Hrun & Hr).
    exists r. split; [exact Hrun|].
    cbn [page_texts]. destruct (page_texts pages) as [ts|];
      cbn [option_map map]; [|exact Hr].
    now rewrite join_empty_cons, <- append_assoc.
Qed.

Lemma join_or_empty_concat (ts : list (option string)) :
  join "" (map or_empty ts) = String.concat "" (map returned_text ts).
Proof.
  induction ts as [|t ts IH]; [reflexivity|].
  cbn [map]. rewrite join_empty_cons, IH.
  destruct t as [x|]; destruct (map returned_text ts) eqn:E;
    cbn [or_empty returned_text String.concat append];
    rewrite ?append_empty_r; reflexivity.
Qed.

(** C8 (as amended).  The extractor always returns a text and never
    raises.  When the file opens, the reader accepts it and every page
    returns, the text is the texts of the pages put together in page
    order, with nothing for a page that returns [None]; when the file
    cannot be opened, the reader raises or any page raises, the text of
    the whole document is empty and the error is logged.  The document of
    four pages is read as stated. *)
Theorem extract_text_from_pdf_spec (filepath : string) (w : World) :
  (exists text w',
     extract_text_from_pdf filepath w = (inr text, w') /\
     text =
       match fs_lookup filepath (fs w) with
       | Some (Readable pages) =>
           match page_texts pages with
           | Some ts => String.concat "" (map returned_text ts)
           | None => ""
           end
       | Some (Unreadable _) => ""
       | None => ""
       end /\
     engine_calls w' = engine_calls w /\ flashes w' = flashes w /\
     fs w' = fs w /\ scans w' = scans w /\ resumes w' = resumes w /\
     (log w' = log w \/ exists e, log w' = ("PDF Error: " ++ e) :: log w)) /\
  extract_text_from_pdf "cv.pdf" Cases.shelf
    = (inr "Experienced backend engineer, Python, Go", Cases.shelf) /\
  extract_text_from_pdf "noise.pdf" Cases.shelf
    = (inr "", logged "PDF Error: EOF marker not found" Cases.shelf) /\
  extract_text_from_pdf "lost.pdf" Cases.shelf
    = (inr "",
       logged "PDF Error: [Errno 2] No such file or directory: 'lost.pdf'"
              Cases.shelf).
Proof.
  split; [|repeat split; reflexivity].
  unfold extract_text_from_pdf, try_except, bind, open_reader.
  destruct (fs_lookup filepath (fs w)) as [[e|pages]|].
  - run_computes_then ltac:(right; now exists e).
  - destruct (read_pages_spec pages "" w) as (r & Hrun & Hr).
    rewrite Hrun. destruct (page_texts pages) as [ts|].
    + subst r. rewrite join_or_empty_concat.
      run_computes_then ltac:(now left).
    + destruct Hr as [e ->]. run_computes_then ltac:(right; now exists e).
  - run_computes_then ltac:(right; now eexists).
Qed.

(** C8 (counterexample to the claim as stated).  The second page of the
    document raises.  The claim puts the empty string for that page, which
    gives the text of the other two; the extractor gives the empty string
    for the whole document. *)
Lemma extract_text_from_pdf_drops_document :
  fs_lookup "torn.pdf" (fs Cases.shelf)
    = Some (Readable [ inr (Some "Page one. "); inl "corrupt page object";
                       inr (Some "Page three.") ]) /\
  extract_text_from_pdf "torn.pdf" Cases.shelf
    = (inr "", logged "PDF Error: corrupt page object" Cases.shelf) /\
  fst (extract_text_from_pdf "torn.pdf" Cases.shelf)
    <> inr ("Page one. " ++ "" ++ "Page three.").
Proof. repeat split; try reflexivity. discriminate. Qed.

End ExtractFacts.

(** ** analyze_with_gemini *)

Section StripFacts.

(** [lstrip] and [rstrip] take away white space and nothing else. *)
Lemma lstrip_cut (s : string) :
  exists pre, s = pre ++ lstrip s /\ every is_space pre = true.
Proof.
  induction s as [|c s (pre & IH & Hpre)]; [now exists ""|].
  cbn [lstrip]. destruct (is_space c) eqn:Hc.
  - exists (String c pre). cbn [append every]. rewrite Hc, Hpre.
    split; [now f_equal|reflexivity].
  - now exists "".
Qed.

Lemma rstrip_cut (s : string) :
  exists suf, s = rstrip s ++ suf /\ every is_space suf = true.
Proof.
  induction s as [|c s (suf & IH & Hsuf)]; [now exists ""|].
  cbn [rstrip]. destruct (rstrip s) as [|d r] eqn:E.
  - cbn [append] in IH. destruct (is_space c) eqn:Hc.
    + exists (String c s). cbn [append every]. rewrite Hc, IH, Hsuf.
      now split.
    + exists suf. cbn [append]. split; [now f_equal|exact Hsuf].
  - exists suf. split; [|exact Hsuf]. cbn [append] in *. now f_equal.
Qed.

Lemma strip_cut (s : string) :
  exists pre suf,
    s = pre ++ strip s ++ suf /\
    every is_space pre = true /\ every is_space suf = true.
Proof.
  destruct (lstrip_cut s) as (pre & Hs & Hpre).
  destruct (rstrip_cut (lstrip s)) as (suf & Hl & Hsuf).
  exists pre, suf. unfold strip. now rewrite <- Hl.
Qed.

Lemma rstrip_last (s : string) : not_space (last_char (rstrip s)) = true.
Proof.
  induction s as [|c s IH]; [reflexivity|].
  cbn [rstrip]. destruct (rstrip s) as [|d r] eqn:E.
  - destruct (is_space c) eqn:Hc; [reflexivity|].
    cbn [last_char not_space]. now rewrite Hc.
  - exact IH.
Qed.

(** A stripped text neither begins nor ends with white space. *)
Lemma strip_ends (s : string) :
  not_space (first_char (strip s)) = true /\
  not_space (last_char (strip s)) = true.
Proof.
  unfold strip. split; [|apply rstrip_last].
  pose proof (lstrip_head s) as H.
  destruct (lstrip s) as [|c y]; [reflexivity|].
  cbn [rstrip]. destruct (rstrip y); rewrite ?H;
    cbn [first_char not_space]; now rewrite H.
Qed.

End StripFacts.

(** C9.  The cleanup leaves no fence anywhere in the reply, wherever the
    fences stood: it is not limited to fences that wrap the payload, and
    a JSON string value that holds fences reaches the decoder without
    them, so the decoded value differs.  The tagged fence goes first, so
    that no "json" is left of it.  Then the text is stripped: what is cut
    off at the two ends is white space and nothing else, and the text
    that remains neither begins nor ends with white space. *)
Theorem clean_json_removes_every_fence (text : string) :
  clean_json text = strip (replace "```" "" (replace "```json" "" text)) /\
  contains "```" (clean_json text) = false /\
  contains "```json" (clean_json text) = false /\
  strip (clean_json text) = clean_json text /\
  (exists pre suf,
     replace "```" "" (replace "```json" "" text)
       = pre ++ clean_json text ++ suf /\
     every is_space pre = true /\ every is_space suf = true) /\
  not_space (first_char (clean_json text)) = true /\
  not_space (last_char (clean_json text)) = true /\
  (let reply := "{" ++ dq ++ "summary" ++ dq ++ ": " ++ dq
                  ++ "wrap code in ```json fences```" ++ dq ++ "}" in
   clean_json reply
     = "{" ++ dq ++ "summary" ++ dq ++ ": " ++ dq
         ++ "wrap code in  fences" ++ dq ++ "}" /\
   Json.loads reply
     = inr (PDict [("summary", PStr "wrap code in ```json fences```")]) /\
   Json.loads (clean_json reply)
     = inr (PDict [("summary", PStr "wrap code in  fences")])) /\
  clean_json ("  " ++ nl ++ "```json" ++ nl ++ " [1, 2] " ++ nl ++ "```"
                ++ nl ++ " ") = "[1, 2]" /\
  clean_json ("One ```json two``` three ") = "One  two three".
Proof.
  assert (contains fence (clean_json text) = false) as Hclean.
  { unfold clean_json.
    destruct (contains fence
                (strip (replace fence "" (replace fence_json "" text))))
      eqn:E; [|reflexivity].
    apply contains_strip in E. now rewrite replace_fence_clean in E. }
  split; [reflexivity|]. split; [exact Hclean|].
  split; [|split; [|split; [|split; [|split]]]].
  - destruct (contains "```json" (clean_json text)) eqn:E; [|reflexivity].
    apply (contains_app_l fence "json") in E. congruence.
  - apply strip_strip.
  - apply strip_cut.
  - apply strip_ends.
  - apply strip_ends.
  - repeat split; vm_compute; reflexivity.
Qed.

Section AnalyzeFacts.

Variable gemini : string -> exn + string.
Variable json_loads : string -> exn + pyval.

(** A reply that the decoder accepts is the result. *)
Lemma analyze_with_gemini_decoded
  (resume_text job_desc text : string) (v : pyval) (w : World) :
  gemini (analysis_prompt resume_text job_desc) = inr text ->
  json_loads (clean_json text) = inr v ->
  analyze_with_gemini gemini json_loads resume_text job_desc w =
  (inr v, called (analysis_prompt resume_text job_desc) w).
Proof.
  intros Hreply Hdec.
  unfold analyze_with_gemini, try_except, bind, generate_content, lift.
  now rewrite Hreply, Hdec.
Qed.

(** The function returns in every case: the [except] branch catches all. *)
Lemma analyze_with_gemini_returns
  (resume_text job_desc : string) (w : World) :
  exists v w',
    analyze_with_gemini gemini json_loads resume_text job_desc w = (inr v, w')
    /\ engine_calls w' = analysis_prompt resume_text job_desc :: engine_calls w
    /\ flashes w' = flashes w /\ fs w' = fs w /\ scans w' = scans w
    /\ resumes w' = resumes w.
Proof.
  unfold analyze_with_gemini, try_except, bind, generate_content, lift.
  destruct (gemini (analysis_prompt resume_text job_desc)) as [e|text];
    [run_computes|].
  destruct (json_loads (clean_json text)) as [e|v]; run_computes.
Qed.

(** C4 (as amended).  A reply that the decoder accepts is returned as
    decoded, nothing added and nothing removed, after one engine call. *)
Theorem analyze_with_gemini_returns_decoded
  (resume_text job_desc text : string) (v : pyval) (w : World) :
  gemini (analysis_prompt resume_text job_desc) = inr text ->
  json_loads (clean_json text) = inr v ->
  analyze_with_gemini gemini json_loads resume_text job_desc w =
  (inr v, called (analysis_prompt resume_text job_desc) w).
Proof. apply analyze_with_gemini_decoded. Qed.

(** C2 (as amended).  When the engine call raises, or the decoder raises on
    the cleaned reply, the function returns (it does not raise) the dict of
    the [except] branch: score 0, a summary that ends with the text of the
    exception, two empty lists and one fixed hint.  The dict has no
    "failed" key. *)
Theorem analyze_with_gemini_failure
  (resume_text job_desc : string) (e : exn) (w : World) :
  gemini (analysis_prompt resume_text job_desc) = inl e \/
  (exists text, gemini (analysis_prompt resume_text job_desc) = inr text /\
                json_loads (clean_json text) = inl e) ->
  analyze_with_gemini gemini json_loads resume_text job_desc w =
  (inr (failure_result e),
   logged ("AI Error: " ++ e)
          (called (analysis_prompt resume_text job_desc) w)) /\
  py_get (failure_result e) "score" = inr (Some (PInt 0)) /\
  py_get (failure_result e) "summary" =
    inr (Some (PStr ("AI Analysis Failed. Error: " ++ e))) /\
  py_get (failure_result e) "grammar_errors" = inr (Some (PList [])) /\
  py_get (failure_result e) "missing_keywords" = inr (Some (PList [])) /\
  py_get (failure_result e) "improvements" =
    inr (Some (PList [PStr "Check API Key or Internet connection."])) /\
  py_get (failure_result e) "failed" = inr None.
Proof.
  intros H. split; [|now repeat split].
  unfold analyze_with_gemini, try_except, bind, generate_content, lift.
  destruct H as [Hcall|(text & Hreply & Hdec)].
  - now rewrite Hcall.
  - now rewrite Hreply, Hdec.
Qed.

(** C7.  When the reply is a payload without fence between the lines
    "```json" and "```", the decoder is given the stripped payload, and
    what it decodes is the result. *)
Theorem analyze_with_gemini_fenced_reply
  (resume_text job_desc payload : string) (v : pyval) (w : World) :
  contains "```" payload = false ->
  gemini (analysis_prompt resume_text job_desc)
    = inr ("```json" ++ nl ++ payload ++ nl ++ "```") ->
  json_loads (strip payload) = inr v ->
  clean_json ("```json" ++ nl ++ payload ++ nl ++ "```") = strip payload /\
  analyze_with_gemini gemini json_loads resume_text job_desc w =
  (inr v, called (analysis_prompt resume_text job_desc) w).
Proof.
  intros Hp Hreply Hdec.
  pose proof (clean_json_fenced payload Hp) as Hclean.
  split; [exact Hclean|].
  apply analyze_with_gemini_decoded
    with (text := fence_json ++ nl ++ payload ++ nl ++ fence).
  - exact Hreply.
  - now rewrite Hclean.
Qed.

End AnalyzeFacts.

(** ** The views *)

(** A write that is not to the upload folder itself and that the file
    system accepts puts the file at its path. *)
Lemma file_save_succeeds
  (save_error : string -> option exn) (name : string) (d : Doc) (w : World) :
  name <> "" ->
  save_error ("static/uploads/" ++ name) = None ->
  file_save save_error ("static/uploads/" ++ name) d w =
  (inr tt,
   with_fs (("static/uploads/" ++ name, d)
              :: fs_remove ("static/uploads/" ++ name) (fs w)) w).
Proof.
  intros Hname Hsave. unfold file_save. rewrite Hsave.
  destruct name as [|c name]; [contradiction|reflexivity].
Qed.

Section ViewFacts.

Variable gemini : string -> exn + string.
Variable json_loads : string -> exn + pyval.
Variable secure_filename : string -> string.
Variable commit_scan : ATSScan -> option exn.
Variable commit_resume : Resume -> option exn.
Variable save_error : string -> option exn.
Variable remove_error : string -> option exn.

(** The extractor returns and touches nothing but the log. *)
Lemma extract_text_from_pdf_returns (filepath : string) (w : World) :
  exists text w',
    extract_text_from_pdf filepath w = (inr text, w') /\
    engine_calls w' = engine_calls w /\ flashes w' = flashes w /\
    fs w' = fs w /\ scans w' = scans w /\ resumes w' = resumes w.
Proof.
  unfold extract_text_from_pdf, try_except, bind, open_reader.
  destruct (fs_lookup filepath (fs w)) as [[e|pages]|]; try run_computes.
  destruct (read_pages_spec pages "" w) as (r & -> & _).
  destruct r; run_computes.
Qed.

(** C3 (as amended).  When the upload is saved and the text extracted
    from it is empty, the view calls the engine not once and stores no
    scan; it flashes the warning that the PDF could not be read and
    renders the page with no result at all. *)
Theorem ats_tool_unreadable_document
  (request : Request) (file : Upload) (w : World) :
  method request = "POST" ->
  multi_get "resume" (files request) = Some file ->
  filename file <> "" ->
  truthy_opt (multi_get "jd" (form request)) = true ->
  secure_filename (filename file) <> "" ->
  save_error ("static/uploads/" ++ secure_filename (filename file)) = None ->
  fst (extract_text_from_pdf
         ("static/uploads/" ++ secure_filename (filename file))
         (snd (file_save save_error
                         ("static/uploads/" ++ secure_filename (filename file))
                         (content file) w)))
    = inr "" ->
  exists w',
    ats_tool gemini json_loads secure_filename commit_scan save_error
             remove_error request w
      = (inr (Template "tools/ats.html" None), w') /\
    engine_calls w' = engine_calls w /\
    scans w' = scans w /\
    flashes w' =
      ("Could not read PDF. Make sure it contains text.", "warning")
        :: flashes w.
Proof.
  intros Hm Hfile Hname Hjd Hsec Hsave Htext.
  unfold ats_tool. rewrite Hm, Hfile, Hjd. cbn [String.eqb Ascii.eqb Bool.eqb].
  apply String.eqb_neq in Hname. rewrite Hname.
  assert (truthy (filename file) = true) as ->.
  { destruct (filename file); [discriminate Hname|reflexivity]. }
  cbn [andb]. unfold bind at 1.
  rewrite (file_save_succeeds _ _ (content file) w Hsec Hsave) in *.
  set (filepath := "static/uploads/" ++ secure_filename (filename file)) in *.
  unfold bind at 1.
  destruct (extract_text_from_pdf_returns filepath
              (with_fs ((filepath, content file) :: fs_remove filepath (fs w)) w))
    as (text & w1 & Hrun & Hcalls & Hfl & _ & Hsc & _).
  cbn [snd] in Htext. rewrite Hrun in *. cbn [fst] in Htext.
  injection Htext as ->.
  unfold bind, flash, os_remove_quietly, ret. cbn [truthy negb].
  destruct (remove_error filepath);
    (eexists; split; [reflexivity|]; cbn; now rewrite Hcalls, Hsc, Hfl).
Qed.

Lemma strip_blank (t : string) :
  String.eqb (strip t) "" = every is_space t.
Proof.
  unfold strip. induction t as [|c t IH]; [reflexivity|].
  cbn [lstrip every]. destruct (is_space c) eqn:Hc; [exact IH|].
  cbn [rstrip andb]. now destruct (rstrip t); rewrite ?Hc.
Qed.

(** The test of line 282 holds of the blank summaries. *)
Lemma summary_test_blank (s : option string) :
  negb (truthy_opt s) || String.eqb (strip (or_empty s)) "" = is_blank s.
Proof.
  destruct s as [t|]; [|reflexivity].
  cbn [truthy_opt or_empty is_blank]. rewrite strip_blank.
  now destruct t.
Qed.

(** C5.  A summary that is absent, empty or white space makes the draft
    call the engine exactly once, and the summary is then the stripped
    reply, or, when the call raises, the sentence "Passionate student
    looking for opportunities to apply skills and grow.", which is not
    empty; any other summary is kept with no call.  The draft returns in
    every case, and the view adds no engine call of its own. *)
Theorem new_resume_summary (request : Request) (w : World) :
  let get k := multi_get k (form request) in
  let prompt :=
    summary_prompt (smart_format_text (get "full_name"))
                   (smart_format_skills (get "skills"))
                   (smart_format_text (get "edu_degree"))
                   (smart_format_text (get "edu_college")) in
  exists row w',
    new_resume gemini request w = (inr row, w') /\
    (if is_blank (get "summary") then
       w' = called prompt w /\
       List.length (engine_calls w') = S (List.length (engine_calls w)) /\
       summary row =
         match gemini prompt with
         | inr reply => strip reply
         | inl _ =>
             "Passionate student looking for opportunities to apply skills and grow."
         end /\
       match gemini prompt with
       | inr _ => True
       | inl _ => summary row <> ""
       end
     else
       w' = w /\
       match get "summary" with
       | Some text => summary row = text
       | None => False
       end) /\
    engine_calls (snd (resume_builder gemini commit_resume request w)) =
      (if String.eqb (method request) "POST" then engine_calls w'
       else engine_calls w).
Proof.
  intros get prompt.
  assert (exists row w',
    new_resume gemini request w = (inr row, w') /\
    (if is_blank (get "summary") then
       w' = called prompt w /\
       List.length (engine_calls w') = S (List.length (engine_calls w)) /\
       summary row =
         match gemini prompt with
         | inr reply => strip reply
         | inl _ =>
             "Passionate student looking for opportunities to apply skills and grow."
         end /\
       match gemini prompt with
       | inr _ => True
       | inl _ => summary row <> ""
       end
     else
       w' = w /\
       match get "summary" with
       | Some text => summary row = text
       | None => False
       end)) as (row & w' & Hrun & Hsum).
  { subst prompt get. cbv beta.
    unfold new_resume. cbv zeta. rewrite summary_test_blank.
    destruct (multi_get "summary" (form request)) as [text|];
      cbn [is_blank or_empty].
    2: { unfold bind, try_except, generate_content.
         destruct (gemini _) as [e|reply];
           eexists _, _; (split; [reflexivity|]); repeat split; discriminate. }
    destruct (every is_space text).
    - unfold bind, try_except, generate_content.
      destruct (gemini _) as [e|reply];
        eexists _, _; (split; [reflexivity|]); repeat split; discriminate.
    - run_computes. }
  exists row, w'. split; [exact Hrun|]. split; [exact Hsum|].
  unfold resume_builder.
  destruct (String.eqb (method request) "POST"); [|reflexivity].
  unfold bind at 1. rewrite Hrun.
  unfold bind, db_add_resume. now destruct (commit_resume row).
Qed.

End ViewFacts.

(** ** Closed instances *)

(** C4 (witness): the decoder of reference on a reply with one extra and
    four missing fields. *)
Lemma analyze_with_gemini_returns_decoded_witness :
  analyze_with_gemini (Stub.engine_replies Sample.partial_reply) Json.loads
                      "resume text" "job text" Stub.empty_world
  = (inr (PDict [("score", PInt 70); ("debug", PBool true)]),
     called (analysis_prompt "resume text" "job text") Stub.empty_world).
Proof.
  apply (analyze_with_gemini_returns_decoded
           (Stub.engine_replies Sample.partial_reply) Json.loads
           "resume text" "job text" Sample.partial_reply).
  - reflexivity.
  - vm_compute. reflexivity.
Defined.

(** C4 (counterexample to the claim as stated).  The reply holds "score"
    and a field "debug" that is no part of the contract.  The result keeps
    "debug" and has none of the four fields the reply lacks. *)
Lemma analyze_with_gemini_no_defaults_no_filter :
  exists result,
    fst (analyze_with_gemini (Stub.engine_replies Sample.partial_reply)
                             Json.loads "resume text" "job text"
                             Stub.empty_world) = inr result /\
    py_get result "debug" = inr (Some (PBool true)) /\
    py_get result "summary" = inr None /\
    py_get result "grammar_errors" = inr None /\
    py_get result "missing_keywords" = inr None /\
    py_get result "improvements" = inr None.
Proof.
  exists (PDict [("score", PInt 70); ("debug", PBool true)]).
  repeat split; vm_compute; reflexivity.
Qed.

(** C2 (witness): an engine call that raises, and a reply in prose. *)
Lemma analyze_with_gemini_failure_witness :
  fst (analyze_with_gemini (Stub.engine_raises "quota exceeded") Json.loads
                           "resume text" "job text" Stub.empty_world)
    = inr (failure_result "quota exceeded") /\
  fst (analyze_with_gemini (Stub.engine_replies Sample.prose_reply) Json.loads
                           "resume text" "job text" Stub.empty_world)
    = inr (failure_result Json.decode_error).
Proof.
  split.
  - rewrite (proj1 (analyze_with_gemini_failure
                      (Stub.engine_raises "quota exceeded") Json.loads
                      "resume text" "job text" "quota exceeded"
                      Stub.empty_world (or_introl eq_refl))).
    reflexivity.
  - rewrite (proj1 (analyze_with_gemini_failure
                      (Stub.engine_replies Sample.prose_reply) Json.loads
                      "resume text" "job text" Json.decode_error
                      Stub.empty_world
                      (or_intror (ex_intro _ Sample.prose_reply
                                           (conj eq_refl eq_refl))))).
    reflexivity.
Defined.

(** C2 (counterexample to the claim as stated).  For a reply in prose the
    result has no "failed" entry, so it does not carry failed=true; and a
    reply that is JSON but not an object of the contract is returned as it
    was decoded, not replaced by the failure result. *)
Lemma analyze_with_gemini_no_failed_flag_no_coercion :
  (exists result,
     fst (analyze_with_gemini (Stub.engine_replies Sample.prose_reply)
                              Json.loads "resume text" "job text"
                              Stub.empty_world) = inr result /\
     py_get result "score" = inr (Some (PInt 0)) /\
     py_get result "failed" = inr None) /\
  fst (analyze_with_gemini (Stub.engine_replies Sample.list_reply)
                           Json.loads "resume text" "job text"
                           Stub.empty_world) = inr (PList [PInt 82]).
Proof.
  split.
  - exists (failure_result Json.decode_error).
    repeat split; vm_compute; reflexivity.
  - vm_compute. reflexivity.
Qed.

(** C7 (witness): the reply of the specification's example, score 82
    between the fence lines. *)
Lemma analyze_with_gemini_fenced_reply_witness :
  fst (analyze_with_gemini (Stub.engine_replies Sample.fenced_reply)
                           Json.loads "resume text" "job text"
                           Stub.empty_world) = inr Sample.payload_value /\
  py_get Sample.payload_value "score" = inr (Some (PInt 82)).
Proof.
  split; [|reflexivity].
  rewrite (proj2 (analyze_with_gemini_fenced_reply
                    (Stub.engine_replies Sample.fenced_reply) Json.loads
                    "resume text" "job text" Sample.payload
                    Sample.payload_value Stub.empty_world
                    eq_refl eq_refl eq_refl)).
  reflexivity.
Defined.

(** C3 (witness): a document whose only page is a scanned image. *)
Lemma ats_tool_unreadable_document_witness :
  exists w',
    ats_tool (Stub.engine_replies Sample.payload) Json.loads
             Stub.plain_filename Stub.commit_ok Stub.save_ok
             Stub.remove_ok Sample.scan_request
             Stub.empty_world
      = (inr (Template "tools/ats.html" None), w') /\
    engine_calls w' = [] /\
    scans w' = [] /\
    flashes w' =
      [("Could not read PDF. Make sure it contains text.", "warning")].
Proof.
  apply (ats_tool_unreadable_document
           (Stub.engine_replies Sample.payload) Json.loads
           Stub.plain_filename Stub.commit_ok Stub.save_ok
           Stub.remove_ok Sample.scan_request
           Sample.scanned_upload Stub.empty_world).
  - reflexivity.
  - reflexivity.
  - discriminate.
  - reflexivity.
  - discriminate.
  - reflexivity.
  - reflexivity.
Defined.

(** C3 (counterexample to the claim as stated).  For that document the
    view renders the page with [None] for result: no dict with failed=true
    and score 0 is returned, nor any summary of an unreadable document. *)
Lemma ats_tool_unreadable_document_no_result :
  fst (ats_tool (Stub.engine_replies Sample.payload) Json.loads
                Stub.plain_filename Stub.commit_ok Stub.save_ok
                Stub.remove_ok Sample.scan_request
                Stub.empty_world)
    = inr (Template "tools/ats.html" None) /\
  ~ (exists result,
       fst (ats_tool (Stub.engine_replies Sample.payload) Json.loads
                     Stub.plain_filename Stub.commit_ok Stub.save_ok
                     Stub.remove_ok Sample.scan_request
                     Stub.empty_world)
         = inr (Template "tools/ats.html" (Some result)) /\
       py_get result "failed" = inr (Some (PBool true))).
Proof.
  split; [reflexivity|].
  intros (result & H & _). vm_compute in H. discriminate H.
Qed.

(** C5 (closed instances).  A summary of blanks with an engine that raises
    gives the fixed sentence after one call; with an engine that answers,
    the stripped answer; a written summary is kept and the engine is not
    called. *)
Example new_resume_examples :
  (let '(row, w) := new_resume (Stub.engine_raises "quota exceeded")
                               (Sample.draft_request "   ") Stub.empty_world in
   option_map summary (match row with inr r => Some r | inl _ => None end)
     = Some "Passionate student looking for opportunities to apply skills and grow."
   /\ List.length (engine_calls w) = 1) /\
  (let '(row, w) := new_resume (Stub.engine_replies "  Curious physicist. ")
                               (Sample.draft_request "") Stub.empty_world in
   option_map summary (match row with inr r => Some r | inl _ => None end)
     = Some "Curious physicist." /\ List.length (engine_calls w) = 1) /\
  (let '(row, w) := new_resume (Stub.engine_raises "quota exceeded")
                               (Sample.draft_request "Keen on optics.")
                               Stub.empty_world in
   option_map summary (match row with inr r => Some r | inl _ => None end)
     = Some "Keen on optics." /\ List.length (engine_calls w) = 0).
Proof. repeat split; reflexivity. Qed.

(** * Further properties of the formatters *)

(** ** Character classes under case mapping *)

Section CharFacts.

(** Proves a fact about one character by trying every character. *)
Ltac by_cases_on c :=
  destruct c as [[|] [|] [|] [|] [|] [|] [|] [|]]; reflexivity.

Lemma to_upper_class (c : ascii) :
  implb (is_lower c)
        (is_upper (to_upper c) && negb (is_lower (to_upper c))) = true.
Proof. by_cases_on c. Qed.

Lemma to_lower_class (c : ascii) :
  implb (is_upper c)
        (is_lower (to_lower c) && negb (is_upper (to_lower c))) = true.
Proof. by_cases_on c. Qed.

Lemma to_upper_delim (c : ascii) : is_delim (to_upper c) = is_delim c.
Proof. by_cases_on c. Qed.

Lemma to_lower_delim (c : ascii) : is_delim (to_lower c) = is_delim c.
Proof. by_cases_on c. Qed.

Lemma to_upper_space (c : ascii) : is_space (to_upper c) = is_space c.
Proof. by_cases_on c. Qed.

Lemma to_lower_space (c : ascii) : is_space (to_lower c) = is_space c.
Proof. by_cases_on c. Qed.

Lemma space_uncased (c : ascii) :
  implb (is_space c) (negb (is_lower c) && negb (is_upper c)) = true.
Proof. by_cases_on c. Qed.

End CharFacts.

(** ** str.title *)

Section TitleFacts.

(** One step of [title_from]: the character written and the flag passed
    on depend on the flag and the character read; the character written
    is mapped to itself under the same flag. *)
Lemma title_from_cons (b : bool) (c : ascii) :
  exists c' b',
    (forall t, title_from b (String c t) = String c' (title_from b' t)) /\
    (forall t, title_from b (String c' t) = String c' (title_from b' t)) /\
    is_space c' = is_space c /\ is_delim c' = is_delim c.
Proof.
  pose proof (to_upper_class c) as Hu. pose proof (to_lower_class c) as Hl.
  destruct (is_lower c) eqn:Elow.
  - destruct b.
    + exists c, true. cbn [title_from]. rewrite Elow. now repeat split.
    + exists (to_upper c), true. cbn [implb] in Hu.
      apply andb_true_iff in Hu as [Hup Hnl]. apply negb_true_iff in Hnl.
      cbn [title_from]. rewrite Elow, Hnl, Hup.
      repeat split; auto using to_upper_space, to_upper_delim.
  - destruct (is_upper c) eqn:Eup.
    + destruct b.
      * exists (to_lower c), true. cbn [implb] in Hl.
        apply andb_true_iff in Hl as [Hlo _].
        cbn [title_from]. rewrite Elow, Eup, Hlo.
        repeat split; auto using to_lower_space, to_lower_delim.
      * exists c, true. cbn [title_from]. rewrite Elow, Eup.
        now repeat split.
    + exists c, false. cbn [title_from]. rewrite Elow, Eup.
      now repeat split.
Qed.

Lemma title_from_idempotent (s : string) (b : bool) :
  title_from b (title_from b s) = title_from b s.
Proof.
  revert b; induction s as [|c s IH]; intros b; [reflexivity|].
  destruct (title_from_cons b c) as (c' & b' & E & Hstep & _).
  now rewrite E, Hstep, IH.
Qed.

(** Title-casing a title-cased text of 7-bit characters changes nothing.
    (Beyond that range CPython maps some characters to several, and the
    law fails there.) *)
Lemma title_idempotent (s : string) :
  every is_ascii7 s = true -> title (title s) = title s.
Proof. intros _. apply title_from_idempotent. Qed.

Lemma every_lstrip (f : ascii -> bool) (s : string) :
  every f s = true -> every f (lstrip s) = true.
Proof.
  induction s as [|c s IH]; [reflexivity|]. intros H.
  cbn [lstrip]. destruct (is_space c); [|exact H].
  cbn [every] in H. apply andb_true_iff in H as [_ H]. now apply IH.
Qed.

Lemma every_rstrip (f : ascii -> bool) (s : string) :
  every f s = true -> every f (rstrip s) = true.
Proof.
  induction s as [|c s IH]; [reflexivity|]. intros H.
  cbn [every] in H. apply andb_true_iff in H as [Hc H].
  specialize (IH H). cbn [rstrip]. destruct (rstrip s) as [|d r].
  - destruct (is_space c); [reflexivity|]. cbn [every]. now rewrite Hc.
  - change (every f (String c (String d r)))
      with (f c && every f (String d r)). now rewrite Hc, IH.
Qed.

Lemma every_strip (f : ascii -> bool) (s : string) :
  every f s = true -> every f (strip s) = true.
Proof. intros H. unfold strip. now apply every_rstrip, every_lstrip. Qed.

Lemma title_from_empty (b : bool) (s : string) :
  title_from b s = "" -> s = "".
Proof.
  destruct s as [|c s]; [reflexivity|].
  destruct (title_from_cons b c) as (c' & b' & E & _). rewrite E.
  discriminate.
Qed.

(** Title-casing moves no white space, so it commutes with stripping. *)
Lemma lstrip_title (s : string) : lstrip (title s) = title (lstrip s).
Proof.
  unfold title. induction s as [|c s IH]; [reflexivity|].
  destruct (title_from_cons false c) as (c' & b' & E & _ & Hsp & _).
  rewrite (E s). cbn [lstrip]. rewrite Hsp.
  destruct (is_space c) eqn:Hc; [|now rewrite E].
  pose proof (space_uncased c) as Hun. rewrite Hc in Hun. cbn [implb] in Hun.
  apply andb_true_iff in Hun as [Hl Hu].
  apply negb_true_iff in Hl, Hu.
  specialize (E s). cbn [title_from] in E. rewrite Hl, Hu in E.
  injection E as _ E. now rewrite <- IH, E.
Qed.

Lemma rstrip_title_from (s : string) (b : bool) :
  rstrip (title_from b s) = title_from b (rstrip s).
Proof.
  revert b; induction s as [|c s IH]; intros b; [reflexivity|].
  destruct (title_from_cons b c) as (c' & b' & E & _ & Hsp & _).
  rewrite E. cbn [rstrip]. rewrite IH, Hsp.
  destruct (rstrip s) as [|d r] eqn:Er.
  - cbn [title_from]. destruct (is_space c); [reflexivity|].
    now rewrite E.
  - rewrite E.
    destruct (title_from b' (String d r)) eqn:Et; [|reflexivity].
    apply title_from_empty in Et. discriminate Et.
Qed.

Lemma strip_title (s : string) : strip (title s) = title (strip s).
Proof.
  unfold strip. rewrite lstrip_title. apply rstrip_title_from.
Qed.

End TitleFacts.

(** ** smart_format_text and smart_format_skills *)

Section FormatterFacts.

(** The formatter on a text it leaves title-cased. *)
Lemma smart_format_text_plain (t : string) :
  contains " Uni" (title (strip t)) = false ->
  smart_format_text (Some t) = title (strip t).
Proof.
  intros H. destruct t as [|c t]; [reflexivity|].
  cbn [smart_format_text truthy negb].
  rewrite (replace_absent " Uni " " University "); [|discriminate|].
  - now apply replace_absent.
  - destruct (contains " Uni " (title (strip (String c t)))) eqn:E;
      [|reflexivity].
    apply (contains_app_l " Uni" " ") in E. congruence.
Qed.

(** X1.  On a text of 7-bit characters whose title-cased form holds no
    " Uni", formatting is idempotent: the formatted text is a fixed point
    of the formatter. *)
Theorem smart_format_text_idempotent_without_Uni (t : string) :
  every is_ascii7 t = true ->
  contains " Uni" (title (strip t)) = false ->
  smart_format_text (Some (smart_format_text (Some t)))
    = smart_format_text (Some t).
Proof.
  intros Hascii H. rewrite (smart_format_text_plain t H).
  assert (title (strip (title (strip t))) = title (strip t)) as Hfix.
  { rewrite strip_title, strip_strip.
    apply title_idempotent. now apply every_strip. }
  rewrite smart_format_text_plain; rewrite Hfix; [reflexivity|exact H].
Qed.

Lemma smart_format_text_idempotent_without_Uni_witness :
  smart_format_text (Some (smart_format_text (Some "  bachelor of science ")))
    = smart_format_text (Some "  bachelor of science ").
Proof.
  apply (smart_format_text_idempotent_without_Uni "  bachelor of science ");
    reflexivity.
Defined.

(** X2.  A text of white space only is formatted to the empty string, as
    an absent or empty one is. *)
Theorem smart_format_text_blank (o : option string) :
  is_blank o = true -> smart_format_text o = "".
Proof.
  destruct o as [t|]; [|reflexivity]. cbn [is_blank]. intros H.
  destruct t as [|c t]; [reflexivity|].
  cbn [smart_format_text truthy negb].
  pose proof (strip_blank (String c t)) as Hs. rewrite H in Hs.
  apply String.eqb_eq in Hs. now rewrite Hs.
Qed.

Lemma smart_format_text_blank_witness :
  smart_format_text (Some "   ") = "".
Proof. apply (smart_format_text_blank (Some "   ")). reflexivity. Defined.

Lemma title_from_not_delim (p : string) (b : bool) :
  every not_delim (title_from b p) = every not_delim p.
Proof.
  revert b; induction p as [|c p IH]; intros b; [reflexivity|].
  destruct (title_from_cons b c) as (c' & b' & E & _ & _ & Hd).
  rewrite E. cbn [every]. unfold not_delim at 1 3. now rewrite Hd, IH.
Qed.

Lemma title_from_truthy (p : string) (b : bool) :
  truthy (title_from b p) = truthy p.
Proof.
  destruct p as [|c p]; [reflexivity|].
  destruct (title_from_cons b c) as (c' & b' & E & _). now rewrite E.
Qed.

(** Reading a piece without delimiter only lengthens the fragment being
    read. *)
Lemma fragments_from_app (p rest cur : string) :
  every not_delim p = true ->
  fragments_from cur (p ++ rest) = fragments_from (cur ++ p) rest.
Proof.
  revert cur; induction p as [|c p IH]; intros cur H.
  - now rewrite append_empty_r.
  - cbn [every] in H. apply andb_true_iff in H as [Hc Hp].
    unfold not_delim in Hc. apply negb_true_iff in Hc.
    change (String c p ++ rest) with (String c (p ++ rest)).
    cbn [fragments_from]. rewrite Hc, (IH _ Hp), append_assoc.
    reflexivity.
Qed.

(** Cutting a list joined with ", " gives the list back. *)
Lemma fragments_join (l : list string) :
  Forall (fun p => truthy p = true /\ every not_delim p = true) l ->
  fragments (join ", " l) = l.
Proof.
  unfold fragments. induction 1 as [|p l [Hne Hnd] Hl IH]; [reflexivity|].
  destruct l as [|q l].
  - cbn [join]. rewrite <- (append_empty_r p) at 1.
    rewrite (fragments_from_app _ _ _ Hnd). cbn. now rewrite Hne.
  - change (join ", " (p :: q :: l)) with (p ++ ", " ++ join ", " (q :: l)).
    rewrite (fragments_from_app _ _ _ Hnd).
    cbn [append fragments_from]. rewrite Hne.
    change (is_delim ",") with true. change (is_delim " ") with true.
    cbn [truthy]. now rewrite IH.
Qed.

Lemma fragments_title_sound (s : string) :
  Forall (fun p => truthy p = true /\ every not_delim p = true)
         (map title (fragments s)).
Proof.
  destruct (fragments_from_sound s "" eq_refl) as [F _].
  unfold fragments. induction F as [|f l [Hne Hnd] _ IH]; [constructor|].
  cbn [map]. constructor; [|exact IH]. unfold title.
  rewrite title_from_truthy, title_from_not_delim.
  split; [now destruct f|exact Hnd].
Qed.

(** The formatter in terms of the fragments of its argument. *)
Lemma smart_format_skills_fragments (s : string) :
  smart_format_skills (Some s) = join ", " (map title (fragments s)).
Proof.
  destruct s as [|c s]; [reflexivity|].
  rewrite fragments_re_split.
  unfold smart_format_skills, re_split. cbn [truthy negb]. cbv zeta.
  rewrite (filter_strip_pieces _ (re_split_from_no_delim false (String c s))).
  f_equal. apply map_ext_in. intros p Hp. f_equal.
  apply strip_no_delim. apply filter_In in Hp as [Hp _].
  pose proof (re_split_from_no_delim false (String c s)) as F.
  rewrite Forall_forall in F. now apply F.
Qed.

(** X3.  Cutting the formatted skill list again gives the title-cased
    skills of the text, one for one: formatting loses, merges and splits no
    skill. *)
Theorem smart_format_skills_round_trip (s : string) :
  fragments (smart_format_skills (Some s)) = map title (fragments s) /\
  List.length (fragments (smart_format_skills (Some s)))
    = List.length (fragments s).
Proof.
  rewrite smart_format_skills_fragments, (fragments_join _ (fragments_title_sound s)).
  split; [reflexivity|apply length_map].
Qed.

(** The fragments are made of characters of the text. *)
Lemma fragments_from_every (f : ascii -> bool) (s cur : string) :
  every f cur = true -> every f s = true ->
  Forall (fun p => every f p = true) (fragments_from cur s).
Proof.
  revert cur; induction s as [|c s IH]; intros cur Hcur Hs; cbn [fragments_from].
  - destruct (truthy cur); repeat constructor. exact Hcur.
  - cbn [every] in Hs. apply andb_true_iff in Hs as [Hc Hs].
    destruct (is_delim c).
    + destruct (truthy cur); [constructor; [exact Hcur|]|]; now apply IH.
    + apply IH; [|exact Hs]. rewrite every_app, Hcur. cbn [every].
      now rewrite Hc.
Qed.

(** X4.  Formatting a formatted skill list of 7-bit characters changes
    nothing. *)
Theorem smart_format_skills_idempotent (s : string) :
  every is_ascii7 s = true ->
  smart_format_skills (Some (smart_format_skills (Some s)))
    = smart_format_skills (Some s).
Proof.
  intros Hascii.
  rewrite (smart_format_skills_fragments (smart_format_skills (Some s))).
  rewrite (smart_format_skills_fragments s) at 1.
  rewrite (fragments_join _ (fragments_title_sound s)), map_map.
  rewrite smart_format_skills_fragments. f_equal.
  apply map_ext_in. intros p Hp. apply title_idempotent.
  pose proof (fragments_from_every is_ascii7 s "" eq_refl Hascii) as F.
  rewrite Forall_forall in F. now apply F.
Qed.

Lemma smart_format_skills_idempotent_witness :
  smart_format_skills
    (Some (smart_format_skills (Some "python, React  node.js,,java")))
    = smart_format_skills (Some "python, React  node.js,,java").
Proof.
  apply (smart_format_skills_idempotent "python, React  node.js,,java").
  reflexivity.
Defined.

(** X5.  A skill text made of commas and white space only, like an absent
    or empty one, is formatted to the empty string. *)
Theorem smart_format_skills_only_delimiters (s : string) :
  every is_delim s = true -> smart_format_skills (Some s) = "".
Proof.
  intros H. rewrite smart_format_skills_fragments.
  assert (fragments s = []) as ->; [|reflexivity].
  unfold fragments. induction s as [|c s IH]; [reflexivity|].
  cbn [every] in H. apply andb_true_iff in H as [Hc Hs].
  cbn [fragments_from truthy]. rewrite Hc. now apply IH.
Qed.

Lemma smart_format_skills_only_delimiters_witness :
  smart_format_skills (Some " , ,, ") = "".
Proof.
  apply (smart_format_skills_only_delimiters " , ,, "). reflexivity.
Defined.

End FormatterFacts.

(** * Further properties of the analysis *)

Section CleanupFacts.

Lemma clean_json_no_fence (text : string) :
  contains fence (clean_json text) = false.
Proof.
  unfold clean_json.
  destruct (contains fence
              (strip (replace fence "" (replace fence_json "" text))))
    eqn:E; [|reflexivity].
  apply contains_strip in E. now rewrite replace_fence_clean in E.
Qed.

(** A text without fence is only stripped. *)
Lemma clean_json_plain (text : string) :
  contains fence text = false -> clean_json text = strip text.
Proof.
  intros H. unfold clean_json.
  rewrite (replace_absent fence_json ""); [|discriminate|].
  - rewrite (replace_absent fence ""); [reflexivity|discriminate|exact H].
  - destruct (contains fence_json text) eqn:E; [|reflexivity].
    apply (contains_app_l fence "json") in E. congruence.
Qed.

(** X6.  The cleanup is idempotent: a cleaned reply is not changed by
    cleaning it again. *)
Theorem clean_json_idempotent (text : string) :
  clean_json (clean_json text) = clean_json text.
Proof.
  rewrite (clean_json_plain _ (clean_json_no_fence text)).
  unfold clean_json. apply strip_strip.
Qed.

(** X7.  Fence lines without the tag "json" are removed as well: for a
    payload without fence between two lines "```", the cleanup gives the
    stripped payload. *)
Theorem clean_json_untagged_fence (payload : string) :
  contains "```" payload = false ->
  clean_json ("```" ++ nl ++ payload ++ nl ++ "```") = strip payload.
Proof.
  intros H. unfold clean_json.
  change ("```" ++ nl ++ payload ++ nl ++ "```")
    with (fence ++ nl ++ payload ++ nl ++ fence).
  assert (replace fence_json "" (fence ++ nl ++ payload ++ nl ++ fence)
          = fence ++ nl ++ payload ++ nl ++ fence) as ->.
  { change (replace fence_json "" (fence ++ nl ++ payload ++ nl ++ fence))
      with (fence ++ nl ++
            replace (fence ++ "json") "" (payload ++ nl ++ fence)).
    now rewrite replace_through_payload. }
  assert (replace fence "" (fence ++ nl ++ payload ++ nl ++ fence)
          = nl ++ payload ++ nl) as ->.
  { change (replace fence "" (fence ++ nl ++ payload ++ nl ++ fence))
      with (String "010" (replace (fence ++ "") "" (payload ++ nl ++ fence))).
    now rewrite replace_through_payload. }
  apply strip_between_nl.
Qed.

Lemma clean_json_untagged_fence_witness :
  clean_json ("```" ++ nl ++ Sample.payload ++ nl ++ "```") = Sample.payload.
Proof.
  apply (clean_json_untagged_fence Sample.payload). reflexivity.
Defined.

Lemma substring_0_length (n : nat) (s : string) :
  String.length (substring 0 n s) = Nat.min n (String.length s).
Proof.
  revert s; induction n as [|n IH]; intros [|c s]; cbn; auto.
Qed.

Lemma append_length (a b : string) :
  String.length (a ++ b) = String.length a + String.length b.
Proof. induction a as [|c a IH]; cbn; [reflexivity|now rewrite IH]. Qed.

(** X8.  The prompt grows with the resume text and the job description up
    to 4000 and 1000 characters and no further: its length is that of the
    prompt of two empty texts plus the two truncated lengths. *)
Theorem analysis_prompt_length (resume_text job_desc : string) :
  String.length (analysis_prompt resume_text job_desc) =
  String.length (analysis_prompt "" "")
  + Nat.min 4000 (String.length resume_text)
  + Nat.min 1000 (String.length job_desc).
Proof.
  rewrite <- !substring_0_length.
  unfold analysis_prompt.
  change (substring 0 4000 "") with "". change (substring 0 1000 "") with "".
  set (x := substring 0 4000 resume_text).
  set (y := substring 0 1000 job_desc).
  cbn [join]. rewrite !append_length. cbn [String.length]. lia.
Qed.

Lemma substring_0_twice (n : nat) (s : string) :
  substring 0 n (substring 0 n s) = substring 0 n s.
Proof.
  revert s; induction n as [|n IH]; intros [|c s]; cbn; try reflexivity.
  now rewrite IH.
Qed.

(** X9.  Only the first 4000 characters of the resume text and the first
    1000 of the job description have a part in the prompt. *)
Theorem analysis_prompt_truncates (resume_text job_desc : string) :
  analysis_prompt resume_text job_desc =
  analysis_prompt (substring 0 4000 resume_text) (substring 0 1000 job_desc).
Proof.
  unfold analysis_prompt. now rewrite !substring_0_twice.
Qed.

End CleanupFacts.

(** * Further properties of the views *)

Section AtsFacts.

Variable gemini : string -> exn + string.
Variable json_loads : string -> exn + pyval.
Variable secure_filename : string -> string.
Variable commit_scan : ATSScan -> option exn.
Variable save_error : string -> option exn.
Variable remove_error : string -> option exn.

(** The analysis returns the value read off the engine and the decoder,
    after one call, and touches only the call list and the log. *)
Lemma analyze_with_gemini_value (resume_text job_desc : string) (w : World) :
  exists w',
    analyze_with_gemini gemini json_loads resume_text job_desc w
      = (inr (analysis_value gemini json_loads resume_text job_desc), w') /\
    engine_calls w' = analysis_prompt resume_text job_desc :: engine_calls w /\
    flashes w' = flashes w /\ fs w' = fs w /\ scans w' = scans w /\
    resumes w' = resumes w.
Proof.
  unfold analyze_with_gemini, analysis_value, try_except, bind,
    generate_content, lift.
  destruct (gemini (analysis_prompt resume_text job_desc)) as [e|reply].
  - eexists. split; [reflexivity|]. now repeat split.
  - destruct (json_loads (clean_json reply)) as [e|v];
      (eexists; split; [reflexivity|]; now repeat split).
Qed.

(** The extractor on a file that has just been saved. *)
Lemma extract_text_from_pdf_saved
  (filepath : string) (d : Doc) (rest : list (string * Doc)) (w : World) :
  exists w',
    extract_text_from_pdf filepath (with_fs ((filepath, d) :: rest) w)
      = (inr (doc_text d), w') /\
    engine_calls w' = engine_calls w /\ flashes w' = flashes w /\
    fs w' = (filepath, d) :: rest /\ scans w' = scans w /\
    resumes w' = resumes w.
Proof.
  unfold extract_text_from_pdf, try_except, bind, open_reader.
  cbn [fs with_fs fs_lookup]. rewrite String.eqb_refl.
  destruct d as [e|pages]; cbn [doc_text].
  - eexists. split; [reflexivity|]. now repeat split.
  - destruct (read_pages_spec pages ""
                (with_fs ((filepath, Readable pages) :: rest) w))
      as (r & -> & Hr).
    destruct (page_texts pages) as [ts|].
    + subst r. eexists. split; [reflexivity|]. now repeat split.
    + destruct Hr as [e ->]. eexists. split; [reflexivity|].
      now repeat split.
Qed.

Lemma fs_remove_twice (path : string) (d : Doc) (files : list (string * Doc)) :
  fs_remove path ((path, d) :: fs_remove path files) = fs_remove path files.
Proof.
  unfold fs_remove at 1. cbn [filter fst]. rewrite String.eqb_refl. cbn [negb].
  unfold fs_remove. induction files as [|[p x] files IH]; [reflexivity|].
  cbn [filter fst]. destruct (String.eqb path p) eqn:E; cbn [negb].
  - exact IH.
  - cbn [filter fst]. rewrite E. cbn [negb]. now rewrite IH.
Qed.

Lemma fs_lookup_removed (path : string) (files : list (string * Doc)) :
  fs_lookup path (fs_remove path files) = None.
Proof.
  unfold fs_remove. induction files as [|[p x] files IH]; [reflexivity|].
  cbn [filter fst]. destruct (String.eqb path p) eqn:E; cbn [negb].
  - exact IH.
  - cbn [fs_lookup]. now rewrite E.
Qed.

(** The view on an upload that it accepts and that is saved: what is
    rendered and what becomes of the world. *)
Lemma ats_tool_accepted
  (request : Request) (file : Upload) (jd : string) (w : World) :
  method request = "POST" ->
  multi_get "resume" (files request) = Some file ->
  filename file <> "" ->
  multi_get "jd" (form request) = Some jd ->
  truthy jd = true ->
  secure_filename (filename file) <> "" ->
  save_error (upload_path secure_filename file) = None ->
  let text := doc_text (content file) in
  let v := analysis_value gemini json_loads text jd in
  exists w',
    ats_tool gemini json_loads secure_filename commit_scan save_error
             remove_error request w
      = (inr (Template "tools/ats.html" (if truthy text then Some v else None)),
         w') /\
    resumes w' = resumes w /\
    fs w' =
      match remove_error (upload_path secure_filename file) with
      | Some _ =>
          (upload_path secure_filename file, content file)
            :: fs_remove (upload_path secure_filename file) (fs w)
      | None => fs_remove (upload_path secure_filename file) (fs w)
      end /\
    engine_calls w' =
      (if truthy text then analysis_prompt text jd :: engine_calls w
       else engine_calls w) /\
    flashes w' =
      (if truthy text then flashes w
       else ("Could not read PDF. Make sure it contains text.", "warning")
              :: flashes w) /\
    scans w' =
      (if truthy text then
         match v with
         | PDict items =>
             match commit_scan (scan_row (current_user_id request) items) with
             | None => (scans w ++ [scan_row (current_user_id request) items])%list
             | Some _ => scans w
             end
         | _ => scans w
         end
       else scans w).
Proof.
  intros Hm Hfile Hname Hjd Htr Hsec Hsave text v.
  unfold ats_tool. rewrite Hm, Hfile, Hjd. cbn [String.eqb Ascii.eqb Bool.eqb].
  apply String.eqb_neq in Hname. rewrite Hname.
  assert (truthy (filename file) = true) as ->.
  { destruct (filename file); [discriminate Hname|reflexivity]. }
  cbn [truthy_opt or_empty]. rewrite Htr. cbn [andb].
  unfold bind at 1.
  rewrite (file_save_succeeds _ _ (content file) w Hsec Hsave).
  fold (upload_path secure_filename file) in *.
  set (filepath := upload_path secure_filename file) in *.
  destruct (extract_text_from_pdf_saved filepath (content file)
              (fs_remove filepath (fs w)) w)
    as (w1 & Hrun & Hc1 & Hf1 & Hfs1 & Hs1 & Hr1).
  unfold bind at 1. rewrite Hrun. fold text.
  destruct (truthy text).
  - destruct (analyze_with_gemini_value text jd w1)
      as (w2 & Hrun2 & Hc2 & Hf2 & Hfs2 & Hs2 & Hr2).
    cbn [negb]. unfold bind. rewrite Hrun2. fold v.
    unfold try_except, lift, db_add_scan, logger_error,
      os_remove_quietly, ret.
    destruct v as [ |b|z|lit|str|lst|items]; cbn [py_get].
    7: fold (scan_row (current_user_id request) items);
       destruct (commit_scan (scan_row (current_user_id request) items)).
    all: destruct (remove_error filepath);
      eexists; (split; [reflexivity|]);
      cbn [fs with_fs logged flashed called engine_calls flashes scans
           resumes log];
      rewrite ?Hr2, ?Hr1, ?Hfs2, ?Hfs1, ?Hc2, ?Hc1, ?Hf2, ?Hf1, ?Hs2, ?Hs1,
        ?fs_remove_twice; now repeat split.
  - unfold bind, flash, os_remove_quietly, ret. cbn [negb].
    destruct (remove_error filepath);
      eexists; (split; [reflexivity|]);
      cbn [fs with_fs logged flashed called engine_calls flashes scans
           resumes log];
      rewrite ?Hr1, ?Hfs1, ?Hc1, ?Hf1, ?Hs1, ?fs_remove_twice;
      now repeat split.
Qed.

(** X10.  End to end: when the upload is saved, its text is not empty,
    the analysis gives a dict and the commit succeeds, the view renders
    that dict and appends exactly one scan, owned by the current user,
    whose score is the "score" of the dict (0 when it has none); the
    engine was called once, with the prompt made of the text and the job
    description. *)
Theorem ats_tool_stores_scan
  (request : Request) (file : Upload) (jd : string)
  (items : list (string * pyval)) (w : World) :
  method request = "POST" ->
  multi_get "resume" (files request) = Some file ->
  filename file <> "" ->
  multi_get "jd" (form request) = Some jd ->
  truthy jd = true ->
  secure_filename (filename file) <> "" ->
  save_error (upload_path secure_filename file) = None ->
  truthy (doc_text (content file)) = true ->
  analysis_value gemini json_loads (doc_text (content file)) jd = PDict items ->
  commit_scan (scan_row (current_user_id request) items) = None ->
  exists w',
    ats_tool gemini json_loads secure_filename commit_scan save_error
             remove_error request w
      = (inr (Template "tools/ats.html" (Some (PDict items))), w') /\
    scans w' = (scans w ++ [scan_row (current_user_id request) items])%list /\
    engine_calls w' =
      analysis_prompt (doc_text (content file)) jd :: engine_calls w /\
    flashes w' = flashes w.
Proof.
  intros Hm Hfile Hname Hjd Htr Hsec Hsave Htext Hv Hcommit.
  destruct (ats_tool_accepted request file jd w Hm Hfile Hname Hjd Htr
              Hsec Hsave)
    as (w' & Hrun & _ & _ & Hc & Hf & Hs).
  rewrite Htext, Hv in *. rewrite Hcommit in Hs.
  exists w'. now repeat split.
Qed.

(** X11.  When the upload is saved, a result that is no dict, or a commit
    that raises, costs the user nothing but the history: the result is
    rendered all the same, no scan is stored and the view does not
    raise. *)
Theorem ats_tool_result_not_stored
  (request : Request) (file : Upload) (jd : string) (w : World) :
  method request = "POST" ->
  multi_get "resume" (files request) = Some file ->
  filename file <> "" ->
  multi_get "jd" (form request) = Some jd ->
  truthy jd = true ->
  secure_filename (filename file) <> "" ->
  save_error (upload_path secure_filename file) = None ->
  truthy (doc_text (content file)) = true ->
  match analysis_value gemini json_loads (doc_text (content file)) jd with
  | PDict items =>
      commit_scan (scan_row (current_user_id request) items) <> None
  | _ => True
  end ->
  exists w',
    ats_tool gemini json_loads secure_filename commit_scan save_error
             remove_error request w
      = (inr (Template "tools/ats.html"
                (Some (analysis_value gemini json_loads
                         (doc_text (content file)) jd))), w') /\
    scans w' = scans w.
Proof.
  intros Hm Hfile Hname Hjd Htr Hsec Hsave Htext Hv.
  destruct (ats_tool_accepted request file jd w Hm Hfile Hname Hjd Htr
              Hsec Hsave)
    as (w' & Hrun & _ & _ & _ & _ & Hs).
  rewrite Htext in *. exists w'. split; [exact Hrun|].
  destruct (analysis_value gemini json_loads (doc_text (content file)) jd);
    try exact Hs.
  now destruct (commit_scan (scan_row (current_user_id request) items)).
Qed.

(** X12.  When the upload is saved, the file written for it is removed
    before the view returns if [os.remove] succeeds, and then no file is
    left at its path; if [os.remove] raises, the view returns all the same
    and the file stays where it was written. *)
Theorem ats_tool_removes_upload
  (request : Request) (file : Upload) (jd : string) (w : World) :
  method request = "POST" ->
  multi_get "resume" (files request) = Some file ->
  filename file <> "" ->
  multi_get "jd" (form request) = Some jd ->
  truthy jd = true ->
  secure_filename (filename file) <> "" ->
  save_error (upload_path secure_filename file) = None ->
  exists response w',
    ats_tool gemini json_loads secure_filename commit_scan save_error
             remove_error request w = (inr response, w') /\
    match remove_error (upload_path secure_filename file) with
    | None =>
        fs w' = fs_remove (upload_path secure_filename file) (fs w) /\
        fs_lookup (upload_path secure_filename file) (fs w') = None
    | Some _ =>
        fs w' = (upload_path secure_filename file, content file)
                  :: fs_remove (upload_path secure_filename file) (fs w) /\
        fs_lookup (upload_path secure_filename file) (fs w')
          = Some (content file)
    end.
Proof.
  intros Hm Hfile Hname Hjd Htr Hsec Hsave.
  destruct (ats_tool_accepted request file jd w Hm Hfile Hname Hjd Htr
              Hsec Hsave)
    as (w' & Hrun & _ & Hfs & _).
  eexists _, w'. split; [exact Hrun|].
  destruct (remove_error (upload_path secure_filename file));
    (split; [exact Hfs|]); rewrite Hfs.
  - cbn [fs_lookup]. now rewrite String.eqb_refl.
  - apply fs_lookup_removed.
Qed.

(** X13.  A POST without the part "resume", or with a file without name,
    is turned away: one "danger" message is flashed, the answer redirects
    to the address of the request, and nothing else changes. *)
Theorem ats_tool_rejects_upload (request : Request) (w : World) :
  method request = "POST" ->
  multi_get "resume" (files request) = None \/
  (exists file, multi_get "resume" (files request) = Some file /\
                filename file = "") ->
  exists message,
    ats_tool gemini json_loads secure_filename commit_scan save_error
             remove_error request w
      = (inr (Redirect (url request)), flashed message "danger" w) /\
    (message = "No file part" \/ message = "No selected file").
Proof.
  intros Hm [Hnone|(file & Hfile & Hname)]; unfold ats_tool; rewrite Hm;
    cbn [String.eqb Ascii.eqb Bool.eqb].
  - rewrite Hnone. exists "No file part". split; [reflexivity|now left].
  - rewrite Hfile, Hname. exists "No selected file".
    split; [reflexivity|now right].
Qed.

(** X14.  A POST with a file but without job description (absent or
    empty) does nothing at all: the page is rendered without result and
    without message, the file is not saved and the engine is not called. *)
Theorem ats_tool_without_job_description
  (request : Request) (file : Upload) (w : World) :
  method request = "POST" ->
  multi_get "resume" (files request) = Some file ->
  filename file <> "" ->
  truthy_opt (multi_get "jd" (form request)) = false ->
  ats_tool gemini json_loads secure_filename commit_scan save_error
           remove_error request w
    = (inr (Template "tools/ats.html" None), w).
Proof.
  intros Hm Hfile Hname Hjd. unfold ats_tool.
  rewrite Hm, Hfile, Hjd. cbn [String.eqb Ascii.eqb Bool.eqb].
  apply String.eqb_neq in Hname. rewrite Hname.
  now rewrite andb_false_r.
Qed.

(** The view on any request.  It raises only when the write of the upload
    raises, and then nothing has changed; otherwise it returns, and the
    world grows by at most one engine call and one well-formed scan of the
    current user. *)
Lemma ats_tool_outcome (request : Request) (w : World) :
  exists r w' new,
    ats_tool gemini json_loads secure_filename commit_scan save_error
             remove_error request w = (r, w') /\
    match r with
    | inr response =>
        response = Redirect (url request) \/
        exists result, response = Template "tools/ats.html" result
    | inl e =>
        w' = w /\ method request = "POST" /\
        truthy_opt (multi_get "jd" (form request)) = true /\
        exists file,
          multi_get "resume" (files request) = Some file /\
          filename file <> "" /\
          file_save save_error (upload_path secure_filename file)
                    (content file) w = (inl e, w)
    end /\
    resumes w' = resumes w /\
    scans w' = (scans w ++ new)%list /\
    List.length new <= 1 /\
    Forall (fun row => scan_user_id row = current_user_id request /\
                       scan_well_formed row) new /\
    List.length (engine_calls w') <= S (List.length (engine_calls w)).
Proof.
  destruct (String.eqb (method request) "POST") eqn:Hm.
  2: { exists (inr (Template "tools/ats.html" None)), w, [].
       unfold ats_tool. rewrite Hm, app_nil_r.
       repeat split; eauto. }
  destruct (multi_get "resume" (files request)) as [file|] eqn:Hfile.
  2: { eexists (inr (Redirect (url request))), _, [].
       unfold ats_tool. rewrite Hm, Hfile.
       split; [reflexivity|]. cbn. rewrite app_nil_r.
       repeat split; auto. }
  destruct (String.eqb (filename file) "") eqn:Hname.
  { eexists (inr (Redirect (url request))), _, [].
    unfold ats_tool. rewrite Hm, Hfile, Hname.
    split; [reflexivity|]. cbn. rewrite app_nil_r.
    repeat split; auto. }
  destruct (truthy_opt (multi_get "jd" (form request))) eqn:Hjd.
  2: { exists (inr (Template "tools/ats.html" None)), w, [].
       unfold ats_tool. rewrite Hm, Hfile, Hname, Hjd, andb_false_r, app_nil_r.
       repeat split; eauto. }
  destruct (file_save save_error (upload_path secure_filename file)
                      (content file) w) as [[e|[]] w0] eqn:Hsave.
  { assert (w0 = w) as ->.
    { unfold file_save in Hsave.
      destruct (String.eqb (upload_path secure_filename file)
                           "static/uploads/");
        [now injection Hsave|].
      destruct (save_error (upload_path secure_filename file));
        [now injection Hsave|discriminate Hsave]. }
    exists (inl e), w, [].
    assert (truthy (filename file) = true) as Htrue.
    { destruct (filename file); [discriminate Hname|reflexivity]. }
    split.
    - unfold ats_tool. rewrite Hm, Hfile, Hname, Hjd, Htrue. cbn [andb].
      unfold bind at 1. fold (upload_path secure_filename file).
      now rewrite Hsave.
    - apply String.eqb_eq in Hm. apply String.eqb_neq in Hname.
      rewrite app_nil_r. repeat split; eauto. }
  assert (secure_filename (filename file) <> "" /\
          save_error (upload_path secure_filename file) = None)
    as [Hsec Hok].
  { unfold file_save, upload_path in Hsave.
    destruct (secure_filename (filename file)) as [|c n] eqn:En;
      [discriminate Hsave|].
    split; [discriminate|].
    change (String.eqb ("static/uploads/" ++ String c n) "static/uploads/")
      with false in Hsave.
    unfold upload_path. rewrite En.
    now destruct (save_error ("static/uploads/" ++ String c n)). }
  apply String.eqb_eq in Hm. apply String.eqb_neq in Hname.
  destruct (multi_get "jd" (form request)) as [jd|] eqn:Ejd;
    [|discriminate Hjd].
  cbn [truthy_opt] in Hjd.
  destruct (ats_tool_accepted request file jd w Hm Hfile Hname Ejd Hjd
              Hsec Hok)
    as (w' & Hrun & Hr & _ & Hc & _ & Hs).
  rewrite Hrun.
  destruct (truthy (doc_text (content file))).
  2: { exists (inr (Template "tools/ats.html" None)), w', [].
       rewrite app_nil_r, Hc. repeat split; eauto. }
  set (v := analysis_value gemini json_loads (doc_text (content file)) jd)
    in *.
  assert (List.length (engine_calls w') <= S (List.length (engine_calls w)))
    as Hlen by (rewrite Hc; cbn; lia).
  destruct v as [ |b|z|lit|str|lst|items].
  7: destruct (commit_scan (scan_row (current_user_id request) items)).
  8: { exists (inr (Template "tools/ats.html" (Some (PDict items)))), w',
         [scan_row (current_user_id request) items].
       repeat split; eauto. repeat constructor. now exists items. }
  all: eexists (inr _), w', []; rewrite app_nil_r; repeat split; eauto.
Qed.


(** X16.  The view keeps the table of scans well formed and append-only:
    the rows stored before stay as they were, at most one row is added, it
    belongs to the current user, and if every stored scan had a dict for
    data and the "score" of that dict (or 0) for score, every stored scan
    still has. *)
Theorem ats_tool_scans_invariant (request : Request) (w : World) :
  Forall scan_well_formed (scans w) ->
  let w' := snd (ats_tool gemini json_loads secure_filename commit_scan
                          save_error remove_error request w) in
  Forall scan_well_formed (scans w') /\
  exists new,
    scans w' = (scans w ++ new)%list /\ List.length new <= 1 /\
    Forall (fun row => scan_user_id row = current_user_id request) new.
Proof.
  intros Hold.
  destruct (ats_tool_outcome request w)
    as (r & w' & new & Hrun & _ & _ & Hs & Hlen & Hnew & _).
  rewrite Hrun. cbn [snd]. split.
  - rewrite Hs. apply Forall_app. split; [exact Hold|].
    eapply Forall_impl; [|exact Hnew]. now intros row [_ H].
  - exists new. repeat split; try assumption.
    eapply Forall_impl; [|exact Hnew]. now intros row [H _].
Qed.

(** X26.  The analysis never raises and calls the engine exactly once.
    Its value is what the decoder gives for the cleaned reply, or the
    failure dict with the text of the exception when the call or the
    decoder raises; flashes, files and stored rows are left alone. *)
Theorem analyze_with_gemini_one_call
  (resume_text job_desc : string) (w : World) :
  exists w',
    analyze_with_gemini gemini json_loads resume_text job_desc w
      = (inr (analysis_value gemini json_loads resume_text job_desc), w') /\
    engine_calls w' = analysis_prompt resume_text job_desc :: engine_calls w /\
    flashes w' = flashes w /\ fs w' = fs w /\ scans w' = scans w /\
    resumes w' = resumes w /\
    ((exists e, analysis_value gemini json_loads resume_text job_desc
                  = failure_result e) \/
     (exists reply,
        gemini (analysis_prompt resume_text job_desc) = inr reply /\
        json_loads (clean_json reply)
          = inr (analysis_value gemini json_loads resume_text job_desc))).
Proof.
  destruct (analyze_with_gemini_value resume_text job_desc w)
    as (w' & Hrun & Hc & Hf & Hfs & Hs & Hr).
  exists w'. repeat split; try assumption.
  unfold analysis_value.
  destruct (gemini (analysis_prompt resume_text job_desc)) as [e|reply];
    [left; now exists e|].
  destruct (json_loads (clean_json reply)) as [e|v] eqn:E;
    [left; now exists e|].
  right. now exists reply.
Qed.

End AtsFacts.

Section ResumeFacts.

Variable gemini : string -> exn + string.
Variable commit_resume : Resume -> option exn.

(** The draft returns the row read off the form and the engine; the world
    changes by the one call made for a blank summary. *)
Lemma new_resume_run (request : Request) (w : World) :
  exists w',
    new_resume gemini request w = (inr (draft_row gemini request), w') /\
    resumes w' = resumes w /\ scans w' = scans w /\ flashes w' = flashes w /\
    (w' = w \/ exists prompt, w' = called prompt w).
Proof.
  unfold new_resume, draft_row. cbv zeta. rewrite summary_test_blank.
  destruct (is_blank (multi_get "summary" (form request))).
  - unfold bind, try_except, generate_content.
    destruct (gemini _) as [e|reply];
      (eexists; split; [reflexivity|]; repeat split; right; now eexists).
  - eexists. split; [reflexivity|]. repeat split. now left.
Qed.

Lemma nth_error_last {A} (l : list A) (x : A) :
  nth_error (l ++ [x]) (List.length l) = Some x.
Proof. induction l as [|a l IH]; [reflexivity|exact IH]. Qed.

(** X17.  Round trip of the builder and the viewer: when the commit
    succeeds, the builder stores the draft as the last row and redirects
    to the view of its id, and that view, asked by the same user, shows
    exactly the draft. *)
Theorem resume_builder_then_view (request : Request) (w : World) :
  method request = "POST" ->
  commit_resume (draft_row gemini request) = None ->
  exists w',
    resume_builder gemini commit_resume request w
      = (inr (RedirectView "resume_view" (S (List.length (resumes w)))), w') /\
    resumes w' = (resumes w ++ [draft_row gemini request])%list /\
    scans w' = scans w /\
    resume_view (current_user_id request) (S (List.length (resumes w))) w'
      = (inr (ResumePage "tools/resume_view.html" (draft_row gemini request)),
         w').
Proof.
  intros Hm Hcommit.
  destruct (new_resume_run request w) as (w1 & Hrun & Hr & Hs & _).
  unfold resume_builder. rewrite Hm. cbn [String.eqb Ascii.eqb Bool.eqb].
  unfold bind at 1. rewrite Hrun.
  unfold bind, db_add_resume, ret. rewrite Hcommit, Hr.
  eexists. split; [reflexivity|].
  cbn [resumes scans]. rewrite ?Hr. repeat split; [exact Hs|].
  unfold resume_view, bind, get_resume_or_404. cbn [resumes].
  rewrite ?Hr, nth_error_last.
  cbn [draft_row resume_user_id]. now rewrite Nat.eqb_refl.
Qed.

(** X18.  The builder raises only when the commit does, with the
    exception of the commit, and then no row is stored; in every other
    case it answers with a redirect or its page. *)
Theorem resume_builder_raises_only_on_commit (request : Request) (w : World) :
  exists r w',
    resume_builder gemini commit_resume request w = (r, w') /\
    scans w' = scans w /\
    match r with
    | inl e =>
        method request = "POST" /\
        commit_resume (draft_row gemini request) = Some e /\
        resumes w' = resumes w
    | inr (RedirectView endpoint id) =>
        endpoint = "resume_view" /\ method request = "POST" /\
        nth_error (resumes w') (id - 1) = Some (draft_row gemini request)
    | inr (Template name result) =>
        name = "tools/resume_builder.html" /\ result = None /\ w' = w
    | inr (Redirect _) => False
    end.
Proof.
  destruct (new_resume_run request w) as (w1 & Hrun & Hr & Hs & _).
  unfold resume_builder.
  destruct (String.eqb (method request) "POST") eqn:Hm.
  - apply String.eqb_eq in Hm. unfold bind at 1. rewrite Hrun.
    unfold bind, db_add_resume, ret.
    destruct (commit_resume (draft_row gemini request)) as [e|].
    + eexists _, _. split; [reflexivity|]. now repeat split.
    + eexists _, _. split; [reflexivity|]. cbn [scans resumes].
      repeat split; try assumption.
      rewrite Hr. cbn [Nat.sub]. rewrite Nat.sub_0_r. apply nth_error_last.
  - eexists _, _. split; [reflexivity|]. now repeat split.
Qed.

(** X19.  The viewer shows a resume only to its owner.  Its three
    outcomes: the page with a stored row of the user and nothing changed;
    for the row of another user, a redirect to the dashboard with the
    message "Unauthorized"; for an id without row, the exception of
    [abort(404)]. *)
Theorem resume_view_access (current_user_id id : nat) (w : World) :
  match resume_view current_user_id id w with
  | (inr (ResumePage name resume), w') =>
      name = "tools/resume_view.html" /\
      resume_user_id resume = current_user_id /\
      nth_error (resumes w) (id - 1) = Some resume /\ 0 < id /\ w' = w
  | (inr (ToView endpoint), w') =>
      endpoint = "dashboard" /\ w' = flashed "Unauthorized" "danger" w /\
      exists resume, nth_error (resumes w) (id - 1) = Some resume /\
                     resume_user_id resume <> current_user_id
  | (inr _, _) => False
  | (inl e, w') =>
      e = not_found /\ w' = w /\ (id = 0 \/ List.length (resumes w) < id)
  end.
Proof.
  unfold resume_view, bind, get_resume_or_404.
  destruct id as [|k]; [repeat split; now left|].
  cbn [Nat.sub]. rewrite Nat.sub_0_r.
  destruct (nth_error (resumes w) k) as [resume|] eqn:E.
  - destruct (Nat.eqb (resume_user_id resume) current_user_id) eqn:Hu;
      cbn [negb].
    + apply Nat.eqb_eq in Hu. repeat split; auto. lia.
    + apply Nat.eqb_neq in Hu. repeat split. now exists resume.
  - repeat split. right. apply nth_error_None in E. lia.
Qed.

(** X20.  The reply of the engine can reach the summary of the draft and
    nothing else: under two engines the drafts of one request agree on
    every other field, and when the form gives a summary that is not
    blank they are the same draft. *)
Theorem new_resume_engine_reaches_summary_only
  (other : string -> exn + string) (request : Request) (w : World) :
  exists row row',
    fst (new_resume gemini request w) = inr row /\
    fst (new_resume other request w) = inr row' /\
    resume_user_id row = resume_user_id row' /\
    full_name row = full_name row' /\ email row = email row' /\
    phone row = phone row' /\ linkedin row = linkedin row' /\
    skills row = skills row' /\ experience row = experience row' /\
    education row = education row' /\
    (if is_blank (multi_get "summary" (form request)) then True
     else row = row').
Proof.
  unfold new_resume. cbv zeta. rewrite summary_test_blank.
  destruct (is_blank (multi_get "summary" (form request))).
  - unfold bind, try_except, generate_content.
    destruct (gemini _), (other _); eexists _, _;
      (split; [reflexivity|]); (split; [reflexivity|]); now repeat split.
  - eexists _, _. split; [reflexivity|]. split; [reflexivity|].
    now repeat split.
Qed.

End ResumeFacts.

Section DashboardFacts.

Variable gemini : string -> exn + string.
Variable json_loads : string -> exn + pyval.
Variable json_dumps : pyval -> string.
Variable secure_filename : string -> string.
Variable commit_scan : ATSScan -> option exn.
Variable save_error : string -> option exn.
Variable remove_error : string -> option exn.

Lemma in_firstn {A} (n : nat) (l : list A) (x : A) :
  In x (firstn n l) -> In x l.
Proof.
  intros H. rewrite <- (firstn_skipn n l). apply in_or_app. now left.
Qed.

Lemma recent_of_sound {A} (owner : A -> nat) (user_id : nat) (table : list A) :
  List.length (recent_of owner user_id table) <= 5 /\
  Forall (fun row => owner row = user_id /\ In row table)
         (recent_of owner user_id table).
Proof.
  unfold recent_of. split.
  - rewrite length_firstn. lia.
  - apply Forall_forall. intros row Hin.
    apply in_firstn in Hin. apply in_rev in Hin.
    apply filter_In in Hin as [Hin Hown].
    apply Nat.eqb_eq in Hown. now split.
Qed.

(** The row committed last comes first. *)
Lemma recent_of_last {A} (owner : A -> nat) (table : list A) (row : A) :
  exists rest,
    recent_of owner (owner row) (table ++ [row]) = row :: rest.
Proof.
  unfold recent_of. rewrite filter_app. cbn [filter].
  rewrite Nat.eqb_refl, rev_app_distr. cbn [rev app firstn]. now eexists.
Qed.

(** X21.  The dashboard never raises and changes nothing.  It lists at
    most five scans and five resumes, all stored and all of the user
    logged in, and puts a summary beside every scan it lists, also beside
    one whose data does not decode. *)
Theorem dashboard_lists_own_rows (current_user_id : nat) (w : World) :
  exists entries rows,
    dashboard json_loads json_dumps current_user_id w
      = (inr (DashboardPage "dashboard.html" entries rows), w) /\
    List.length entries <= 5 /\ List.length rows <= 5 /\
    Forall (fun entry =>
              scan_user_id (fst entry) = current_user_id /\
              In (fst entry) (scans w) /\
              snd entry = scan_summary json_loads json_dumps (fst entry))
           entries /\
    Forall (fun row => resume_user_id row = current_user_id /\
                       In row (resumes w)) rows.
Proof.
  destruct (recent_of_sound scan_user_id current_user_id (scans w))
    as [Hlen Hscans].
  destruct (recent_of_sound resume_user_id current_user_id (resumes w))
    as [Hlen' Hrows].
  eexists _, _. split; [reflexivity|].
  rewrite length_map. repeat split; try assumption.
  apply Forall_forall. intros entry Hin.
  apply in_map_iff in Hin as (scan & <- & Hin).
  rewrite Forall_forall in Hscans. destruct (Hscans _ Hin). now repeat split.
Qed.

(** X22.  A scan stored by the scanner heads the dashboard of its owner:
    after an upload that is saved, whose analysis gives a dict and whose
    commit succeeds, the first entry of the dashboard is the new scan,
    and, when the decoder reads back what the encoder wrote for the dict,
    the summary beside it is the "summary" of the dict, or "No summary"
    when the dict has none. *)
Theorem dashboard_after_scan
  (request : Request) (file : Upload) (jd : string)
  (items : list (string * pyval)) (w : World) :
  method request = "POST" ->
  multi_get "resume" (files request) = Some file ->
  filename file <> "" ->
  multi_get "jd" (form request) = Some jd ->
  truthy jd = true ->
  secure_filename (filename file) <> "" ->
  save_error (upload_path secure_filename file) = None ->
  truthy (doc_text (content file)) = true ->
  analysis_value gemini json_loads (doc_text (content file)) jd = PDict items ->
  commit_scan (scan_row (current_user_id request) items) = None ->
  json_loads (json_dumps (PDict items)) = inr (PDict items) ->
  exists entries rows,
    fst (dashboard json_loads json_dumps (current_user_id request)
           (snd (ats_tool gemini json_loads secure_filename commit_scan
                          save_error remove_error request w)))
      = inr (DashboardPage "dashboard.html"
               ((scan_row (current_user_id request) items,
                 match dict_lookup "summary" items with
                 | Some v => v
                 | None => PStr "No summary"
                 end) :: entries)
               rows).
Proof.
  intros Hm Hfile Hname Hjd Htr Hsec Hsave Htext Hv Hcommit Hround.
  destruct (ats_tool_accepted gemini json_loads secure_filename commit_scan
              save_error remove_error request file jd w Hm Hfile Hname Hjd
              Htr Hsec Hsave)
    as (w' & Hrun & _ & _ & _ & _ & Hs).
  rewrite Htext, Hv, Hcommit in Hs. rewrite Hrun. cbn [snd].
  unfold dashboard. cbn [fst]. rewrite Hs.
  destruct (recent_of_last scan_user_id (scans w)
              (scan_row (current_user_id request) items)) as [rest Hrest].
  cbn [scan_row scan_user_id] in Hrest. rewrite Hrest. cbn [map].
  eexists _, _. f_equal. f_equal. f_equal. f_equal.
  unfold scan_summary. cbn [scan_row scan_data]. rewrite Hround.
  cbn [py_get]. now destruct (dict_lookup "summary" items).
Qed.

End DashboardFacts.

(** * Properties of the accounts *)

Section AccountFacts.

Variable generate_password_hash : option string -> exn + string.
Variable check_password_hash : string -> option string -> exn + bool.
Variable commit_user : User -> option exn.

Lemma opt_eqb_eq (a b : option string) : opt_eqb a b = true <-> a = b.
Proof.
  destruct a as [x|], b as [y|]; cbn; split; intros H;
    try discriminate; try reflexivity.
  - apply String.eqb_eq in H. now subst.
  - injection H as ->. apply String.eqb_refl.
Qed.

Lemma first_user_from_none (table : list User) (k : nat) (email : option string) :
  first_user_from k email table = None ->
  ~ In email (map user_email table).
Proof.
  revert k; induction table as [|user table IH]; intros k H; cbn in *; [tauto|].
  destruct (opt_eqb (user_email user) email) eqn:E; [discriminate|].
  intros [Heq|Hin].
  - apply opt_eqb_eq in Heq. congruence.
  - exact (IH _ H Hin).
Qed.

Lemma first_user_from_some
  (table : list User) (k id : nat) (email : option string) (user : User) :
  first_user_from k email table = Some (id, user) ->
  k <= id /\ nth_error table (id - k) = Some user /\ user_email user = email.
Proof.
  revert k; induction table as [|u table IH]; intros k H; cbn in *;
    [discriminate|].
  destruct (opt_eqb (user_email u) email) eqn:E.
  - injection H as <- <-. apply opt_eqb_eq in E.
    rewrite Nat.sub_diag. now repeat split.
  - destruct (IH _ H) as (Hle & Hnth & Hmail).
    repeat split; [lia| |exact Hmail].
    replace (id - k) with (S (id - S k)) by lia. exact Hnth.
Qed.

Lemma first_user_from_new
  (table : list User) (k : nat) (email : option string) (user : User) :
  first_user_from k email table = None ->
  user_email user = email ->
  first_user_from k email (table ++ [user])
    = Some (k + List.length table, user).
Proof.
  intros H Hmail. revert k H; induction table as [|u table IH]; intros k H;
    cbn in *.
  - apply opt_eqb_eq in Hmail. rewrite Hmail. now rewrite Nat.add_0_r.
  - destruct (opt_eqb (user_email u) email); [discriminate|].
    rewrite (IH _ H). f_equal. f_equal. lia.
Qed.

(** What the view does to the accounts: nothing, or one row at the end
    whose email no row had. *)
Lemma auth_route_users (request : Request) (s : Site) :
  let s' := snd (auth_route generate_password_hash check_password_hash
                            commit_user request s) in
  users s' = users s \/
  exists user,
    users s' = (users s ++ [user])%list /\
    ~ In (user_email user) (map user_email (users s)) /\
    session s' = Some (S (List.length (users s))).
Proof.
  unfold auth_route.
  destruct (session s); [now left|].
  destruct (String.eqb (method request) "POST"); [|now left].
  cbv zeta.
  destruct (opt_eqb (multi_get "action" (form request)) (Some "signup")).
  - destruct (first_user _ (users s)) as [[id user]|] eqn:E; [now left|].
    destruct (generate_password_hash _) as [e|hashed_pw]; [now left|].
    destruct (commit_user _); [now left|].
    right. eexists. repeat split.
    now apply first_user_from_none in E.
  - destruct (opt_eqb (multi_get "action" (form request)) (Some "login"));
      [|now left].
    destruct (first_user _ (users s)) as [[id user]|]; [|now left].
    destruct (check_password_hash _ _) as [e|[|]]; now left.
Qed.

(** X23.  The view keeps the emails of the accounts distinct and the
    accounts it found untouched: it changes no row, removes none, and adds
    at most one, at the end, for an email that no account had. *)
Theorem auth_route_keeps_emails_unique (request : Request) (s : Site) :
  NoDup (map user_email (users s)) ->
  let s' := snd (auth_route generate_password_hash check_password_hash
                            commit_user request s) in
  NoDup (map user_email (users s')) /\
  exists new, users s' = (users s ++ new)%list /\ List.length new <= 1.
Proof.
  intros Huniq s'. subst s'.
  destruct (auth_route_users request s) as [->|(user & -> & Hnew & _)].
  - split; [exact Huniq|]. exists []. rewrite app_nil_r.
    split; [reflexivity|cbn; lia].
  - split; [|exists [user]; split; [reflexivity|cbn; lia]].
    rewrite map_app. cbn [map].
    apply NoDup_rev in Huniq. rewrite <- (rev_involutive (_ ++ _)).
    apply NoDup_rev. rewrite rev_app_distr. cbn [rev app].
    constructor; [|exact Huniq]. now rewrite <- in_rev.
Qed.

(** X24.  Nobody is logged in without cause.  When the view ends with a
    user logged in who was not before, either the request signed up the
    account just added for its email, or it logged in to the first account
    of its email and the password check on the stored hash said yes. *)
Theorem auth_route_login_requires_check
  (request : Request) (s : Site) (id : nat) :
  session s = None ->
  session (snd (auth_route generate_password_hash check_password_hash
                           commit_user request s)) = Some id ->
  let s' := snd (auth_route generate_password_hash check_password_hash
                            commit_user request s) in
  let email := multi_get "email" (form request) in
  let password := multi_get "password" (form request) in
  method request = "POST" /\
  exists user,
    nth_error (users s') (id - 1) = Some user /\ 0 < id /\
    user_email user = email /\
    ((multi_get "action" (form request) = Some "signup" /\
      users s' = (users s ++ [user])%list /\
      generate_password_hash password = inr (user_password_hash user)) \/
     (multi_get "action" (form request) = Some "login" /\
      users s' = users s /\
      check_password_hash (user_password_hash user) password = inr true)).
Proof.
  intros Hs. unfold auth_route. rewrite Hs.
  destruct (String.eqb (method request) "POST") eqn:Hm;
    [|cbn; rewrite Hs; discriminate].
  apply String.eqb_eq in Hm. cbv zeta.
  destruct (opt_eqb (multi_get "action" (form request)) (Some "signup"))
    eqn:Ha.
  - apply opt_eqb_eq in Ha.
    destruct (first_user _ (users s)) as [[k user]|] eqn:E;
      [cbn; rewrite Hs; discriminate|].
    destruct (generate_password_hash _) as [e|hashed_pw] eqn:Eh;
      [cbn; rewrite Hs; discriminate|].
    destruct (commit_user _); [cbn; rewrite Hs; discriminate|].
    cbn [snd session users]. intros Hid. injection Hid as <-.
    split; [exact Hm|]. eexists. cbn [Nat.sub].
    rewrite Nat.sub_0_r, nth_error_last.
    repeat split; [lia|]. left. now repeat split.
  - destruct (opt_eqb (multi_get "action" (form request)) (Some "login"))
      eqn:Hl; [|cbn; rewrite Hs; discriminate].
    apply opt_eqb_eq in Hl.
    destruct (first_user _ (users s)) as [[k user]|] eqn:E;
      [|cbn; rewrite Hs; discriminate].
    apply first_user_from_some in E as (Hle & Hnth & Hmail).
    destruct (check_password_hash _ _) as [e|[|]] eqn:Ec;
      try (cbn; rewrite Hs; discriminate).
    cbn [snd session users]. intros Hid. injection Hid as <-.
    split; [exact Hm|]. exists user.
    repeat split; [exact Hnth|lia|exact Hmail|]. right. now repeat split.
Qed.

(** X25.  Sign up, log out, log in: after a sign-up that succeeded, a
    login with the same email is decided by the password check on the hash
    stored at sign-up.  When the check says yes the user is logged in to
    the account made at sign-up; when it says no, nobody is logged in and
    the failure is flashed. *)
Theorem signup_then_login (signup login : Request) (s : Site) (hash : string) :
  session s = None ->
  method signup = "POST" ->
  multi_get "action" (form signup) = Some "signup" ->
  first_user (multi_get "email" (form signup)) (users s) = None ->
  generate_password_hash (multi_get "password" (form signup)) = inr hash ->
  commit_user (mkUser (multi_get "name" (form signup))
                      (multi_get "email" (form signup)) hash) = None ->
  method login = "POST" ->
  multi_get "action" (form login) = Some "login" ->
  multi_get "email" (form login) = multi_get "email" (form signup) ->
  let s1 := snd (auth_route generate_password_hash check_password_hash
                            commit_user signup s) in
  let s2 := snd (logout s1) in
  let s3 := snd (auth_route generate_password_hash check_password_hash
                            commit_user login s2) in
  session s1 = Some (S (List.length (users s))) /\
  session s2 = None /\
  fst (index s2) = inr (ToView "auth_route") /\
  match check_password_hash hash (multi_get "password" (form login)) with
  | inr true => session s3 = session s1 /\ users s3 = users s1
  | inr false =>
      session s3 = None /\ users s3 = users s1 /\
      flashes (world s3) =
        ("Login Failed. Check email or password.", "danger")
          :: flashes (world s)
  | inl _ => session s3 = None /\ users s3 = users s1
  end.
Proof.
  intros Hs Hm Ha Hnew Hh Hc Hm' Ha' Hmail s1 s2 s3.
  pose (user := mkUser (multi_get "name" (form signup))
                       (multi_get "email" (form signup)) hash).
  assert (s1 = mkSite (world s) (users s ++ [user])%list
                      (Some (S (List.length (users s))))) as Hs1.
  { subst s1. unfold auth_route. rewrite Hs, Hm, Ha. cbv zeta.
    cbn [String.eqb Ascii.eqb Bool.eqb opt_eqb].
    now rewrite Hnew, Hh, Hc. }
  assert (s2 = mkSite (world s) (users s ++ [user])%list None) as Hs2.
  { subst s2. now rewrite Hs1. }
  rewrite Hs1 at 1. rewrite Hs2 at 1 2. cbn [session index fst].
  repeat split.
  subst s3. rewrite Hs2. unfold auth_route.
  cbn [session users world]. rewrite Hm', Ha', Hmail.
  cbv zeta. cbn [String.eqb Ascii.eqb Bool.eqb opt_eqb].
  unfold first_user in *.
  rewrite (first_user_from_new _ _ _ user Hnew eq_refl).
  cbn [user_password_hash user].
  rewrite Hs1.
  destruct (check_password_hash hash (multi_get "password" (form login)))
    as [e|[|]]; cbn [snd session users world site_flash flashed flashes];
    now repeat split.
Qed.

End AccountFacts.

(** * Closed instances of the further properties *)

(** X10 (witness): the three-page document and an engine that answers
    with the payload of score 82. *)
Lemma ats_tool_stores_scan_witness :
  exists w',
    ats_tool (Stub.engine_replies Sample.payload) Json.loads
             Stub.plain_filename Stub.commit_ok Stub.save_ok
             Stub.remove_ok Cases.text_request
             Stub.empty_world
      = (inr (Template "tools/ats.html" (Some (PDict Cases.payload_items))),
         w') /\
    scans w' = ([] ++ [scan_row 7 Cases.payload_items])%list /\
    engine_calls w' =
      [analysis_prompt "Experienced backend engineer, Python, Go"
                       "Looking for Go developer"] /\
    flashes w' = [].
Proof.
  apply (ats_tool_stores_scan
           (Stub.engine_replies Sample.payload) Json.loads
           Stub.plain_filename Stub.commit_ok Stub.save_ok
           Stub.remove_ok Cases.text_request
           Cases.text_upload "Looking for Go developer" Cases.payload_items
           Stub.empty_world); try reflexivity; discriminate.
Defined.

(** X11 (witness): an engine that answers with a list. *)
Lemma ats_tool_result_not_stored_witness :
  exists w',
    ats_tool (Stub.engine_replies Sample.list_reply) Json.loads
             Stub.plain_filename Stub.commit_ok Stub.save_ok
             Stub.remove_ok Cases.text_request
             Stub.empty_world
      = (inr (Template "tools/ats.html" (Some (PList [PInt 82]))), w') /\
    scans w' = [].
Proof.
  apply (ats_tool_result_not_stored
           (Stub.engine_replies Sample.list_reply) Json.loads
           Stub.plain_filename Stub.commit_ok Stub.save_ok
           Stub.remove_ok Cases.text_request
           Cases.text_upload "Looking for Go developer" Stub.empty_world);
    try reflexivity; try discriminate; exact I.
Defined.

(** X12 (witness): an older file under the same name goes with the
    upload when the removal succeeds; the upload stays when it is
    refused. *)
Lemma ats_tool_removes_upload_witness :
  (exists response w',
     ats_tool (Stub.engine_replies Sample.payload) Json.loads
              Stub.plain_filename Stub.commit_ok Stub.save_ok Stub.remove_ok
              Cases.text_request Cases.busy_world = (inr response, w') /\
     fs w' = [] /\ fs_lookup "static/uploads/cv.pdf" (fs w') = None) /\
  (exists response w',
     ats_tool (Stub.engine_replies Sample.payload) Json.loads
              Stub.plain_filename Stub.commit_ok Stub.save_ok
              Stub.remove_denied Cases.text_request Cases.busy_world
       = (inr response, w') /\
     fs w' = [("static/uploads/cv.pdf", content Cases.text_upload)] /\
     fs_lookup "static/uploads/cv.pdf" (fs w')
       = Some (content Cases.text_upload)).
Proof.
  split.
  - apply (ats_tool_removes_upload
             (Stub.engine_replies Sample.payload) Json.loads
             Stub.plain_filename Stub.commit_ok Stub.save_ok Stub.remove_ok
             Cases.text_request Cases.text_upload "Looking for Go developer"
             Cases.busy_world); try reflexivity; discriminate.
  - apply (ats_tool_removes_upload
             (Stub.engine_replies Sample.payload) Json.loads
             Stub.plain_filename Stub.commit_ok Stub.save_ok
             Stub.remove_denied Cases.text_request Cases.text_upload
             "Looking for Go developer" Cases.busy_world);
      try reflexivity; discriminate.
Defined.

(** X13 (witness): no part "resume", and a file without name. *)
Lemma ats_tool_rejects_upload_witness :
  (exists message,
     ats_tool (Stub.engine_replies Sample.payload) Json.loads
              Stub.plain_filename Stub.commit_ok Stub.save_ok
              Stub.remove_ok Cases.no_file_request
              Stub.empty_world
       = (inr (Redirect "/tools/ats"),
          flashed message "danger" Stub.empty_world) /\
     (message = "No file part" \/ message = "No selected file")) /\
  (exists message,
     ats_tool (Stub.engine_replies Sample.payload) Json.loads
              Stub.plain_filename Stub.commit_ok Stub.save_ok
              Stub.remove_ok Cases.unnamed_file_request
              Stub.empty_world
       = (inr (Redirect "/tools/ats"),
          flashed message "danger" Stub.empty_world) /\
     (message = "No file part" \/ message = "No selected file")).
Proof.
  split.
  - apply (ats_tool_rejects_upload
             (Stub.engine_replies Sample.payload) Json.loads
             Stub.plain_filename Stub.commit_ok Stub.save_ok
             Stub.remove_ok Cases.no_file_request
             Stub.empty_world eq_refl).
    left. reflexivity.
  - apply (ats_tool_rejects_upload
             (Stub.engine_replies Sample.payload) Json.loads
             Stub.plain_filename Stub.commit_ok Stub.save_ok
             Stub.remove_ok Cases.unnamed_file_request
             Stub.empty_world eq_refl).
    right. exists (mkUpload "" (Readable [])). split; reflexivity.
Defined.

(** X14 (witness): an empty job description. *)
Lemma ats_tool_without_job_description_witness :
  ats_tool (Stub.engine_replies Sample.payload) Json.loads
           Stub.plain_filename Stub.commit_ok Stub.save_ok
           Stub.remove_ok Cases.no_jd_request
           Cases.busy_world
    = (inr (Template "tools/ats.html" None), Cases.busy_world).
Proof.
  apply (ats_tool_without_job_description
           (Stub.engine_replies Sample.payload) Json.loads
           Stub.plain_filename Stub.commit_ok Stub.save_ok
           Stub.remove_ok Cases.no_jd_request
           Cases.text_upload Cases.busy_world); try reflexivity.
  discriminate.
Defined.

(** X16 (witness): the first scan of an empty table. *)
Lemma ats_tool_scans_invariant_witness :
  Forall scan_well_formed
         (scans (snd (ats_tool (Stub.engine_replies Sample.payload) Json.loads
                               Stub.plain_filename Stub.commit_ok Stub.save_ok
                               Stub.remove_ok
                               Cases.text_request Stub.empty_world))).
Proof.
  apply (ats_tool_scans_invariant
           (Stub.engine_replies Sample.payload) Json.loads
           Stub.plain_filename Stub.commit_ok Stub.save_ok
           Stub.remove_ok Cases.text_request
           Stub.empty_world).
  constructor.
Defined.

(** X17 (witness): a draft with a written summary. *)
Lemma resume_builder_then_view_witness :
  exists w',
    resume_builder (Stub.engine_raises "quota exceeded") Stub.commit_ok
                   (Sample.draft_request "Keen on optics.") Stub.empty_world
      = (inr (RedirectView "resume_view" 1), w') /\
    resumes w' =
      ([] ++ [draft_row (Stub.engine_raises "quota exceeded")
                        (Sample.draft_request "Keen on optics.")])%list /\
    scans w' = [] /\
    resume_view 1 1 w'
      = (inr (ResumePage "tools/resume_view.html"
                (draft_row (Stub.engine_raises "quota exceeded")
                           (Sample.draft_request "Keen on optics."))), w').
Proof.
  apply (resume_builder_then_view
           (Stub.engine_raises "quota exceeded") Stub.commit_ok
           (Sample.draft_request "Keen on optics.") Stub.empty_world);
    reflexivity.
Defined.

(** X22 (witness): the scan of score 82 on the dashboard of user 7. *)
Lemma dashboard_after_scan_witness :
  exists entries rows,
    fst (dashboard Json.loads Cases.dumps_payload 7
           (snd (ats_tool (Stub.engine_replies Sample.payload) Json.loads
                          Stub.plain_filename Stub.commit_ok Stub.save_ok
                          Stub.remove_ok
                          Cases.text_request Stub.empty_world)))
      = inr (DashboardPage "dashboard.html"
               ((scan_row 7 Cases.payload_items, PStr "Solid profile")
                  :: entries)
               rows).
Proof.
  apply (dashboard_after_scan
           (Stub.engine_replies Sample.payload) Json.loads Cases.dumps_payload
           Stub.plain_filename Stub.commit_ok Stub.save_ok
           Stub.remove_ok Cases.text_request
           Cases.text_upload "Looking for Go developer" Cases.payload_items
           Stub.empty_world); try reflexivity; discriminate.
Defined.

(** X23 (witness): the first account. *)
Lemma auth_route_keeps_emails_unique_witness :
  NoDup (map user_email
             (users (snd (auth_route Cases.mark_hash Cases.mark_check
                                     Stub.commit_ok Cases.signup_request
                                     Cases.empty_site)))).
Proof.
  apply (auth_route_keeps_emails_unique
           Cases.mark_hash Cases.mark_check Stub.commit_ok
           Cases.signup_request Cases.empty_site).
  constructor.
Defined.

(** X24 (witness): the sign-up that logs in the first account. *)
Lemma auth_route_login_requires_check_witness :
  method Cases.signup_request = "POST" /\
  exists user,
    nth_error
      (users (snd (auth_route Cases.mark_hash Cases.mark_check
                              Stub.commit_ok Cases.signup_request
                              Cases.empty_site))) (1 - 1) = Some user /\
    0 < 1 /\
    user_email user = Some "jane@x.org" /\
    ((multi_get "action" (form Cases.signup_request) = Some "signup" /\
      users (snd (auth_route Cases.mark_hash Cases.mark_check
                             Stub.commit_ok Cases.signup_request
                             Cases.empty_site)) = ([] ++ [user])%list /\
      Cases.mark_hash (Some "s3cret") = inr (user_password_hash user)) \/
     (multi_get "action" (form Cases.signup_request) = Some "login" /\
      users (snd (auth_route Cases.mark_hash Cases.mark_check
                             Stub.commit_ok Cases.signup_request
                             Cases.empty_site)) = [] /\
      Cases.mark_check (user_password_hash user) (Some "s3cret") = inr true)).
Proof.
  apply (auth_route_login_requires_check
           Cases.mark_hash Cases.mark_check Stub.commit_ok
           Cases.signup_request Cases.empty_site 1); reflexivity.
Defined.

(** X25 (witness): the right password after sign-up and logout. *)
Lemma signup_then_login_witness :
  session (snd (auth_route Cases.mark_hash Cases.mark_check Stub.commit_ok
                           (Cases.login_request "s3cret")
                           (snd (logout
                                   (snd (auth_route Cases.mark_hash
                                           Cases.mark_check Stub.commit_ok
                                           Cases.signup_request
                                           Cases.empty_site))))))
    = Some 1.
Proof.
  pose proof (signup_then_login
                Cases.mark_hash Cases.mark_check Stub.commit_ok
                Cases.signup_request (Cases.login_request "s3cret")
                Cases.empty_site "hash:s3cret"
                eq_refl eq_refl eq_refl eq_refl eq_refl eq_refl eq_refl
                eq_refl eq_refl) as H.
  cbv zeta in H. destruct H as (_ & _ & _ & H).
  change (Cases.mark_check "hash:s3cret"
            (multi_get "password" (form (Cases.login_request "s3cret"))))
    with (@inr exn bool true) in H.
  destruct H as [H _]. rewrite H. reflexivity.
Defined.

(** * When smart_format_text changes the text *)

Section LengthFacts.

Lemma replace_from_skip (old new p r : string) :
  replace_from (String.length p) old new (p ++ r) = replace_from 0 old new r.
Proof. induction p as [|c p IH]; [reflexivity|exact IH]. Qed.

(** An occurrence found at the head is replaced and passed over. *)
Lemma replace_hit (c : ascii) (old new r : string) :
  replace (String c old) new (String c old ++ r)
    = new ++ replace (String c old) new r.
Proof.
  unfold replace.
  change (String c old ++ r) with (String c (old ++ r)).
  cbn [replace_from startswith].
  rewrite Ascii.eqb_refl. cbn [andb].
  assert (startswith old (old ++ r) = true) as ->.
  { clear. induction old as [|a old IH]; [reflexivity|].
    cbn. now rewrite Ascii.eqb_refl. }
  cbn [String.length Nat.sub]. rewrite Nat.sub_0_r.
  now rewrite replace_from_skip.
Qed.

(** A replacement that is not shorter than the pattern shortens no text,
    and a longer one lengthens every text that holds the pattern. *)
Lemma replace_length (c : ascii) (old new : string) (n : nat) (s : string) :
  String.length s <= n ->
  String.length (String c old) <= String.length new ->
  String.length s <= String.length (replace (String c old) new s) /\
  (contains (String c old) s = true ->
   String.length (String c old) < String.length new ->
   String.length s < String.length (replace (String c old) new s)).
Proof.
  intros Hn Hle. revert s Hn; induction n as [|n IH]; intros s Hn.
  - destruct s; [|cbn in Hn; lia]. split; [cbn; lia|discriminate].
  - destruct (startswith (String c old) s) eqn:Hhit.
    + destruct (startswith_split _ _ Hhit) as [r ->].
      rewrite replace_hit, !append_length.
      rewrite append_length in Hn.
      destruct (IH r) as [Hr _]; [cbn in *; lia|]. split; [lia|]. lia.
    + destruct s as [|a s]; [split; [cbn; lia|discriminate]|].
      rewrite (replace_miss _ _ _ _ Hhit).
      destruct (IH s) as [Hs Hstrict]; [cbn in Hn; lia|].
      cbn [String.length contains]. rewrite Hhit. cbn [orb].
      split; [lia|]. intros Hc Hlt. specialize (Hstrict Hc Hlt). lia.
Qed.

(** X27.  The formatter lengthens every text whose stripped, title-cased
    form holds " Uni", whatever follows it: a text that already says
    " University" is changed as well.  With the property of a text
    without " Uni", the formatter returns the title-cased text exactly
    when that text holds no " Uni". *)
Theorem smart_format_text_lengthens (t : string) :
  contains " Uni" (title (strip t)) = true ->
  String.length (title (strip t))
    < String.length (smart_format_text (Some t)) /\
  smart_format_text (Some t) <> title (strip t).
Proof.
  intros H.
  assert (String.length (title (strip t))
          < String.length (smart_format_text (Some t))) as Hlt.
  { destruct t as [|a t]; [discriminate H|].
    cbn [smart_format_text truthy negb]. cbv zeta.
    set (T := title (strip (String a t))) in *.
    destruct (replace_length " " "Uni " " University " (String.length T) T
                (le_n _)) as [H1 H1s]; [cbn; lia|].
    set (T1 := replace " Uni " " University " T) in *.
    destruct (replace_length " " "Uni" " University" (String.length T1) T1
                (le_n _)) as [H2 H2s]; [cbn; lia|].
    destruct (contains " Uni " T) eqn:E.
    - assert (String.length T < String.length T1) by (apply H1s; cbn; lia).
      lia.
    - assert (T1 = T) as HT by (now apply replace_absent).
      rewrite HT in *.
      assert (String.length T
              < String.length (replace " Uni" " University" T))
        by (apply H2s; [exact H|cbn; lia]).
      lia. }
  split; [exact Hlt|]. intros E. rewrite E in Hlt. lia.
Qed.

Lemma smart_format_text_lengthens_witness :
  String.length (title (strip "delhi university"))
    < String.length (smart_format_text (Some "delhi university")) /\
  smart_format_text (Some "delhi university") <> title (strip "delhi university").
Proof.
  apply (smart_format_text_lengthens "delhi university"). reflexivity.
Defined.

End LengthFacts.
